(** * cool_turb: radiative cooling source term and uniform initial state

    A shallow embedding of [src/pgen/cool_turb.cpp] (an Athena++ problem
    generator) and the properties of its cooling curve, its per-cell energy
    update, its initial state and its setup routine.

    The C++ type [Real] is a build-time choice of floating-point format.  The
    embedding is therefore written once, over a class [RealOps] of the
    arithmetic the source uses, and read at two carriers:

    - [R], exact real arithmetic, for the statements that are about the
      mathematical values of the cooling table and that rounding does not
      overturn (the table, its continuity and bounds, the direction in
      which the curve and the energy move);
    - [spec_float] at precision 53 and maximal exponent 1024 (IEEE binary64,
      the default [Real]), for the statements that involve zeros, infinities
      and NaN, and for evaluating the code on concrete cells.

    Over [R] a quotient by zero is [0] (the convention of the library), so a
    temperature above the floor entails a non-zero density there; what the
    code does with a zero density is stated at binary64.  Cell indices are
    [int] in the source and [Z] here: the host's index ranges are far from
    the limits of [int]. *)

From Stdlib Require Import ZArith QArith Qreals Reals Lra Lia Bool List String Ascii.
From Stdlib Require Import Floats.SpecFloat.

(** ** The arithmetic of [Real] *)

Declare Scope Real_scope.
Delimit Scope Real_scope with Real.

(** The operations of [Real] that the source uses.  [lit] reads a decimal
    literal of the source, a negated one such as [-24.0] included (negation
    is exact in both carriers); [ltb] and [leb] are [<] and [<=] (the
    source's [a > b] is [ltb b a] and [a >= b] is [leb b a]). *)
Class RealOps (T : Type) : Type := {
  lit : Q -> T;
  add : T -> T -> T;
  sub : T -> T -> T;
  mul : T -> T -> T;
  div : T -> T -> T;
  ltb : T -> T -> bool;
  leb : T -> T -> bool
}.

Arguments lit {T _} _%_Q.

Infix "+" := add : Real_scope.
Infix "-" := sub : Real_scope.
Infix "*" := mul : Real_scope.
Infix "/" := div : Real_scope.
Notation "x <? y" := (ltb x y) : Real_scope.
Notation "x <=? y" := (leb x y) : Real_scope.
Notation "x >? y" := (ltb y x) : Real_scope.
Notation "x >=? y" := (leb y x) : Real_scope.

(** The one order law the source relies on implicitly: a value that compares
    [<=] another does not compare [>] it.  It holds for the reals and for
    IEEE comparisons (where a NaN operand makes both comparisons false). *)
Class RealOrder (T : Type) `{RealOps T} : Prop := {
  leb_not_gtb : forall a b : T, leb a b = true -> ltb b a = false
}.

(** *** Exact reals *)

#[export] Instance R_RealOps : RealOps R := {
  lit := Q2R;
  add := Rplus;
  sub := Rminus;
  mul := Rmult;
  div := Rdiv;
  ltb := fun a b => if Rlt_dec a b then true else false;
  leb := fun a b => if Rle_dec a b then true else false
}.

(** [std::log10] and [std::pow] on the reals. *)
Definition R_log10 (x : R) : R := (ln x / ln 10)%R.
Definition R_pow (b y : R) : R := Rpower b y.

(** *** IEEE binary64 *)

Definition prec : Z := 53.
Definition emax : Z := 1024.

Definition binary64 : Type := spec_float.

(** A decimal literal is rounded to the nearest binary64 value (ties to
    even): the correctly rounded quotient of its numerator and denominator. *)
Definition b64_of_Q (q : Q) : binary64 :=
  match Qnum q with
  | Z0 => S754_zero false
  | Zpos n => SFdiv prec emax (S754_finite false n 0) (S754_finite false (Qden q) 0)
  | Zneg n => SFdiv prec emax (S754_finite true n 0) (S754_finite false (Qden q) 0)
  end.

#[export] Instance b64_RealOps : RealOps binary64 := {
  lit := b64_of_Q;
  add := SFadd prec emax;
  sub := SFsub prec emax;
  mul := SFmul prec emax;
  div := SFdiv prec emax;
  ltb := SFltb;
  leb := SFleb
}.

Definition b64_is_finite (x : binary64) : bool :=
  match x with S754_zero _ | S754_finite _ _ _ => true | _ => false end.

(** Classes of binary64 values: a value that is zero, negative or NaN, and
    a value that is finite and positive. *)
Definition b64_nonpos_or_nan (x : binary64) : bool :=
  match x with
  | S754_zero _ | S754_nan => true
  | S754_infinity s | S754_finite s _ _ => s
  end.

Definition b64_pos_finite (x : binary64) : bool :=
  match x with
  | S754_finite false _ _ => true
  | _ => false
  end.

Definition b64_pinf : binary64 := S754_infinity false.

(** ** The cooling curve *)

Section CoolingCurve.
Context {Real : Type} `{RealOps Real}.
Local Open Scope Real_scope.

(** The right-hand sides of the four sloped assignments of [TempToLambda],
    named by the interval they serve. *)
Definition seg_4_5 (log10T : Real) : Real :=
  lit (-24.0) + (lit (-20.5) + lit 24.0) * (log10T - lit 4.0).
Definition seg_5_75 (log10T : Real) : Real :=
  lit (-20.5) + (lit (-22.5) + lit 20.5) * (log10T - lit 5.0) / (lit 7.5 - lit 5.0).
Definition seg_75_9 (log10T : Real) : Real :=
  lit (-22.5) + (lit (-22.0) + lit 22.5) * (log10T - lit 7.5) / (lit 9.0 - lit 7.5).
Definition seg_9_up (log10T : Real) : Real :=
  lit (-22.0) + (log10T - lit 9.0) / lit 3.0.

(** [log10Lambda] starts at [0.0] in the source and every branch assigns
    it; the function returns the value of the branch taken. *)
Definition TempToLambda (log10T : Real) : Real :=
  if log10T <? lit 4.0 then
    lit (-24.0)
  else if (log10T >=? lit 4.0) && (log10T <? lit 5.0) then
    seg_4_5 log10T
  else if (log10T >=? lit 5.0) && (log10T <? lit 7.5) then
    seg_5_75 log10T
  else if (log10T >=? lit 7.5) && (log10T <? lit 9.0) then
    seg_75_9 log10T
  else
    seg_9_up log10T.
End CoolingCurve.

(** ** Arrays, loops and host objects *)

(** Modelled from the spec: the variable slots of the host's arrays
    ([athena.hpp] is not among the sources).  A conserved cell state holds
    the mass density, three momentum densities and the total energy density;
    a primitive cell state holds the density, three velocities and the
    pressure, the velocities and the pressure in the slots of the momenta
    and the energy. *)
Inductive VarIndex : Set := IDN | IM1 | IM2 | IM3 | IEN.

Definition IVX : VarIndex := IM1.
Definition IVY : VarIndex := IM2.
Definition IVZ : VarIndex := IM3.
Definition IPR : VarIndex := IEN.

Definition VarIndex_eqb (a b : VarIndex) : bool :=
  match a, b with
  | IDN, IDN | IM1, IM1 | IM2, IM2 | IM3, IM3 | IEN, IEN => true
  | _, _ => false
  end.

(** Modelled from the spec: [AthenaArray<Real>] ([athena_arrays.hpp] is not
    among the sources), a four-dimensional array read as [a(n,k,j,i)]: a
    variable slot and three cell indices. *)
Definition AthenaArray (I Real : Type) : Type := I -> Z -> Z -> Z -> Real.

(** The assignment [a(n,k,j,i) = v]. *)
Definition set4 {Real : Type} (a : AthenaArray VarIndex Real)
  (n : VarIndex) (k j i : Z) (v : Real) : AthenaArray VarIndex Real :=
  fun n' k' j' i' =>
    if VarIndex_eqb n' n && (k' =? k)%Z && (j' =? j)%Z && (i' =? i)%Z
    then v else a n' k' j' i'.

(** The loop [for (int k = lo; k <= hi; ++k) body], as a state transformer:
    [for_from n k] runs the [n] iterations that start at [k]. *)
Fixpoint for_from {S : Type} (n : nat) (k : Z) (body : Z -> S -> S) (s : S) : S :=
  match n with
  | O => s
  | Datatypes.S n' => for_from n' (k + 1)%Z body (body k s)
  end.

Definition for_range {S : Type} (lo hi : Z) (body : Z -> S -> S) (s : S) : S :=
  for_from (Z.to_nat (hi + 1 - lo)) lo body s.

(** Modelled from the spec: the part of [MeshBlock] the file uses
    ([mesh.hpp] is not among the sources): the owned index range in the
    three directions, the adiabatic index held by the equation of state and
    the conserved array [phydro->u]. *)
Record MeshBlock (Real : Type) : Type := {
  is_ : Z; ie : Z;
  js : Z; je : Z;
  ks : Z; ke : Z;
  peos_GetGamma : Real;
  phydro_u : AthenaArray VarIndex Real
}.

Arguments is_ {Real} _.
Arguments ie {Real} _.
Arguments js {Real} _.
Arguments je {Real} _.
Arguments ks {Real} _.
Arguments ke {Real} _.
Arguments peos_GetGamma {Real} _.
Arguments phydro_u {Real} _.

Definition set_phydro_u {Real : Type} (pmb : MeshBlock Real)
  (u : AthenaArray VarIndex Real) : MeshBlock Real :=
  {| is_ := is_ pmb; ie := ie pmb; js := js pmb; je := je pmb;
     ks := ks pmb; ke := ke pmb; peos_GetGamma := peos_GetGamma pmb;
     phydro_u := u |}.

(** A cell lies in the owned range of a block. *)
Definition owned {Real : Type} (pmb : MeshBlock Real) (k j i : Z) : Prop :=
  (ks pmb <= k <= ke pmb)%Z /\ (js pmb <= j <= je pmb)%Z /\ (is_ pmb <= i <= ie pmb)%Z.

Definition ownedb {Real : Type} (pmb : MeshBlock Real) (k j i : Z) : bool :=
  ((ks pmb <=? k) && (k <=? ke pmb) && ((js pmb <=? j) && (j <=? je pmb))
   && ((is_ pmb <=? i) && (i <=? ie pmb)))%Z.

(** ** Results of fallible calls *)

Inductive result (A : Type) : Type :=
| Ok (a : A)
| Fatal (msg : string).

Arguments Ok {A} a.
Arguments Fatal {A} msg.

Definition endl : string := String (ascii_of_nat 10) EmptyString.

(** Modelled from the spec: [ParameterInput] ([parameter_input.hpp] is not
    among the sources), the configuration as two partial maps from a block
    name and a key.  Reading a required key that is absent is fatal;
    [GetOrAddReal] falls back on its default (that it also records the
    default in the configuration is not modelled). *)
Record ParameterInput (Real : Type) : Type := {
  real_param : string -> string -> option Real;
  int_param : string -> string -> option Z
}.

Arguments real_param {Real} _ _ _.
Arguments int_param {Real} _ _ _.

(** The diagnostic of a missing key; its wording is the model's own. *)
Definition missing_parameter (block name : string) : string :=
  ("Parameter name '" ++ name ++ "' not found in block '" ++ block ++ "'")%string.

Definition GetReal {Real : Type} (pin : ParameterInput Real) (block name : string)
  : result Real :=
  match real_param pin block name with
  | Some v => Ok v
  | None => Fatal (missing_parameter block name)
  end.

Definition GetOrAddReal {Real : Type} (pin : ParameterInput Real)
  (block name : string) (def : Real) : Real :=
  match real_param pin block name with
  | Some v => v
  | None => def
  end.

Definition GetInteger {Real : Type} (pin : ParameterInput Real) (block name : string)
  : result Z :=
  match int_param pin block name with
  | Some v => Ok v
  | None => Fatal (missing_parameter block name)
  end.

(** ** The cooling source term *)

Section Cooling.
Context {Real : Type} `{RealOps Real}.
Local Open Scope Real_scope.

(** [std::log10] and [std::pow] of the C++ library. *)
Variable log10 : Real -> Real.
Variable pow : Real -> Real -> Real.

(** The constants that [CoolingSource] and [ProblemGenerator] declare. *)
Definition temp_goal : Real := lit 0.1.
Definition tau : Real := lit 0.01.
Definition mu : Real := lit 0.62.
Definition kB : Real := lit 1.3807e-16.
Definition amu : Real := lit 1.660539e-24.

(** The energy that the loop body leaves in a cell of pressure [p], density
    [rho] and energy [e]. *)
Definition cooled_energy (dt p rho e : Real) : Real :=
  let temp := p / rho * mu * amu / kB in
  let log10T := log10 temp in
  let log10Lambda := TempToLambda log10T in
  let Lambda := pow (lit 10.0) log10Lambda in
  if temp >? temp_goal then
    e - dt * rho * rho / amu / amu * Lambda
  else e.

(** The body of the innermost loop, at cell [(k,j,i)]. *)
Definition CoolingSource_cell (dt : Real) (prim : AthenaArray VarIndex Real)
  (k j i : Z) (cons : AthenaArray VarIndex Real) : AthenaArray VarIndex Real :=
  let temp := prim IPR k j i / prim IDN k j i * mu * amu / kB in
  let log10T := log10 temp in
  let log10Lambda := TempToLambda log10T in
  let Lambda := pow (lit 10.0) log10Lambda in
  if temp >? temp_goal then
    set4 cons IEN k j i
      (cons IEN k j i - dt * prim IDN k j i * prim IDN k j i / amu / amu * Lambda)
  else cons.

(** [CoolingSource] returns the two arrays it holds by mutable reference,
    [cons] and [cons_scalar]; the other arrays are [const]. *)
Definition CoolingSource (pmb : MeshBlock Real) (time dt : Real)
  (prim : AthenaArray VarIndex Real) (prim_scalar bcc : AthenaArray nat Real)
  (cons : AthenaArray VarIndex Real) (cons_scalar : AthenaArray nat Real)
  : AthenaArray VarIndex Real * AthenaArray nat Real :=
  let g := peos_GetGamma pmb in
  (for_range (ks pmb) (ke pmb) (fun k =>
     for_range (js pmb) (je pmb) (fun j =>
       for_range (is_ pmb) (ie pmb) (fun i =>
         CoolingSource_cell dt prim k j i))) cons,
   cons_scalar).

End Cooling.

(** ** The initial state *)

Section InitialState.
Context {Real : Type} `{RealOps Real}.
Local Open Scope Real_scope.

Definition bind_result {A B : Type} (r : result A) (f : A -> result B) : result B :=
  match r with
  | Ok a => f a
  | Fatal msg => Fatal msg
  end.

(** The body of the innermost loop of [ProblemGenerator]. *)
Definition ProblemGenerator_cell (NON_BAROTROPIC_EOS : bool) (rho T gm1 : Real)
  (k j i : Z) (u : AthenaArray VarIndex Real) : AthenaArray VarIndex Real :=
  let u := set4 u IDN k j i rho in
  let u := set4 u IM1 k j i (lit 0.0) in
  let u := set4 u IM2 k j i (lit 0.0) in
  let u := set4 u IM3 k j i (lit 0.0) in
  if NON_BAROTROPIC_EOS then
    set4 u IEN k j i (rho * kB * T / gm1 / mu / amu)
  else u.

Definition ProblemGenerator (NON_BAROTROPIC_EOS : bool) (pmb : MeshBlock Real)
  (pin : ParameterInput Real) : result (MeshBlock Real) :=
  bind_result (GetReal pin "problem" "rho") (fun rho =>
  bind_result (GetReal pin "problem" "T") (fun T =>
  bind_result (GetReal pin "hydro" "gamma") (fun gamma =>
  let gm1 := gamma - lit 1.0 in
  Ok (set_phydro_u pmb
        (for_range (ks pmb) (ke pmb) (fun k =>
           for_range (js pmb) (je pmb) (fun j =>
             for_range (is_ pmb) (ie pmb) (fun i =>
               ProblemGenerator_cell NON_BAROTROPIC_EOS rho T gm1 k j i)))
           (phydro_u pmb)))))).

End InitialState.

(** ** Setup *)

Section Setup.
Context {Real : Type} `{RealOps Real}.
Local Open Scope Real_scope.

(** [std::log10] and [std::pow], which the enrolled [CoolingSource] calls. *)
Variable log10 : Real -> Real.
Variable pow : Real -> Real -> Real.

(** The type of an explicit source function, as [CoolingSource] has it. *)
Definition SrcTermFunc : Type :=
  MeshBlock Real -> Real -> Real ->
  AthenaArray VarIndex Real -> AthenaArray nat Real -> AthenaArray nat Real ->
  AthenaArray VarIndex Real -> AthenaArray nat Real ->
  AthenaArray VarIndex Real * AthenaArray nat Real.

(** Modelled from the spec: the part of [Mesh] the file writes ([mesh.hpp]
    is not among the sources): the two parameters held for the gravity
    subsystem, the turbulence mode and the slot of the explicit source
    function. *)
Record Mesh : Type := {
  four_pi_G_ : Real;
  grav_eps_ : Real;
  turb_flag : Z;
  UserSourceTerm_ : option SrcTermFunc
}.

(** A member function of [Mesh]: it runs on the mesh and leaves a mesh and
    either a value or the fatal error it raised. *)
Definition MeshM (A : Type) : Type := Mesh -> Mesh * result A.

Definition ret {A : Type} (a : A) : MeshM A := fun m => (m, Ok a).

Definition bind {A B : Type} (c : MeshM A) (f : A -> MeshM B) : MeshM B :=
  fun m =>
    match c m with
    | (m', Ok a) => f a m'
    | (m', Fatal msg) => (m', Fatal msg)
    end.

Definition lift {A : Type} (r : result A) : MeshM A := fun m => (m, r).

(** Modelled from the spec: [SetFourPiG] and [SetGravityThreshold] forward
    the two parameters to the gravity subsystem, here the two fields of the
    mesh; [EnrollUserExplicitSourceFunction] fills the callback slot. *)
Definition SetFourPiG (x : Real) : MeshM unit :=
  fun m => ({| four_pi_G_ := x; grav_eps_ := grav_eps_ m;
               turb_flag := turb_flag m; UserSourceTerm_ := UserSourceTerm_ m |}, Ok tt).

Definition SetGravityThreshold (x : Real) : MeshM unit :=
  fun m => ({| four_pi_G_ := four_pi_G_ m; grav_eps_ := x;
               turb_flag := turb_flag m; UserSourceTerm_ := UserSourceTerm_ m |}, Ok tt).

(** The assignment [turb_flag = x]. *)
Definition set_turb_flag (x : Z) : MeshM unit :=
  fun m => ({| four_pi_G_ := four_pi_G_ m; grav_eps_ := grav_eps_ m;
               turb_flag := x; UserSourceTerm_ := UserSourceTerm_ m |}, Ok tt).

Definition EnrollUserExplicitSourceFunction (f : SrcTermFunc) : MeshM unit :=
  fun m => ({| four_pi_G_ := four_pi_G_ m; grav_eps_ := grav_eps_ m;
               turb_flag := turb_flag m; UserSourceTerm_ := Some f |}, Ok tt).

(** Modelled from the spec: [ATHENA_ERROR(msg)] ([athena.hpp] is not among
    the sources) raises the fatal error with its diagnostic; nothing after
    it runs, and what was written to the mesh before it stays. *)
Definition ATHENA_ERROR {A : Type} (msg : string) : MeshM A :=
  fun m => (m, Fatal msg).

Definition turbulence_without_FFT : string :=
  ("### FATAL ERROR in TurbulenceDriver::TurbulenceDriver" ++ endl
   ++ "non zero Turbulence flag is set without FFT!" ++ endl)%string.

Notation "x <- c ;; k" := (bind c (fun x => k))
  (at level 61, c at next level, right associativity).
Notation "c ;; k" := (bind c (fun _ => k))
  (at level 61, right associativity).

(** [SELF_GRAVITY_ENABLED] and [FFT] are build-time switches of the host. *)
Definition InitUserMeshData (SELF_GRAVITY_ENABLED FFT : bool)
  (pin : ParameterInput Real) : MeshM unit :=
  (if SELF_GRAVITY_ENABLED then
     four_pi_G <- lift (GetReal pin "problem" "four_pi_G") ;;
     let eps := GetOrAddReal pin "problem" "grav_eps" (lit 0.0) in
     SetFourPiG four_pi_G ;;
     SetGravityThreshold eps
   else ret tt) ;;
  tf <- lift (GetInteger pin "problem" "turb_flag") ;;
  set_turb_flag tf ;;
  (if negb (tf =? 0)%Z then
     if FFT then ret tt
     else ATHENA_ERROR turbulence_without_FFT
   else ret tt) ;;
  EnrollUserExplicitSourceFunction (CoolingSource log10 pow).

End Setup.

(** The five-segment table of the specification, written over the reals with
    the coefficients as the specification prints them. *)
Definition CoolingCurve_table (x : R) : R :=
  (if Rlt_dec x 4 then -24
   else if Rlt_dec x 5 then -24 + 3.5 * (x - 4)
   else if Rlt_dec x 7.5 then -20.5 - (2.0 / 2.5) * (x - 5)
   else if Rlt_dec x 9 then -22.5 + (0.5 / 1.5) * (x - 7.5)
   else -22 + (x - 9) / 3)%R.

(** The values of the curve at its four breakpoints, and the values there
    of the formulas of the segments on either side. *)
Definition breakpoints_agree (Real : Type) `{RealOps Real} : Prop :=
  TempToLambda (lit 4.0) = lit (-24.0) /\
  TempToLambda (lit 5.0) = lit (-20.5) /\
  TempToLambda (lit 7.5) = lit (-22.5) /\
  TempToLambda (lit 9.0) = lit (-22.0) /\
  seg_4_5 (lit 4.0) = lit (-24.0) /\
  (seg_4_5 (lit 5.0) = lit (-20.5) /\ seg_5_75 (lit 5.0) = lit (-20.5)) /\
  (seg_5_75 (lit 7.5) = lit (-22.5) /\ seg_75_9 (lit 7.5) = lit (-22.5)) /\
  (seg_75_9 (lit 9.0) = lit (-22.0) /\ seg_9_up (lit 9.0) = lit (-22.0)).

(** ** Concrete inputs

    A block of one owned cell and arrays that hold the same state in every
    cell. *)

Definition one_cell {Real : Type} `{RealOps Real} : MeshBlock Real :=
  {| is_ := 0; ie := 0; js := 0; je := 0; ks := 0; ke := 0;
     peos_GetGamma := lit (5 # 3);
     phydro_u := fun _ _ _ _ => lit 0.0 |}.

Definition uniform {I Real : Type} (v : Real) : AthenaArray I Real :=
  fun _ _ _ _ => v.

(** Primitive state of density [rho] and pressure [p], at rest (the
    pressure sits in the slot [IPR], which is the slot [IEN]). *)
Definition prim_of {Real : Type} `{RealOps Real} (rho p : Real)
  : AthenaArray VarIndex Real :=
  fun n _ _ _ =>
    match n with
    | IDN => rho
    | IEN => p
    | _ => lit 0.0
    end.

(** Stand-ins for [std::log10] and [std::pow] at binary64, where only their
    values at infinity matter: both send [+inf] to [+inf], as the C library
    does. *)
Definition log10_stub (x : binary64) : binary64 := x.
Definition pow_stub (b y : binary64) : binary64 := y.

(** The value that [ProblemGenerator] leaves in slot [n] of a cell it
    visits, given what the slot held. *)
Definition initial_value {Real : Type} `{RealOps Real}
  (NON_BAROTROPIC_EOS : bool) (rho T gm1 : Real) (n : VarIndex) (old : Real) : Real :=
  match n with
  | IDN => rho
  | IM1 | IM2 | IM3 => lit 0.0
  | IEN => if NON_BAROTROPIC_EOS then (rho * kB * T / gm1 / mu / amu)%Real else old
  end.

(** A configuration with every key the file reads except [grav_eps], and
    a mesh as the host leaves it before setup. *)
Definition pin_example {Real : Type} `{RealOps Real} (tf : Z) : ParameterInput Real :=
  {| real_param := fun block name =>
       if ((block =? "problem") && (name =? "rho"))%string then Some (lit 1.0)
       else if ((block =? "problem") && (name =? "T"))%string then Some (lit 1.0e6)
       else if ((block =? "hydro") && (name =? "gamma"))%string then Some (lit (5 # 3))
       else if ((block =? "problem") && (name =? "four_pi_G"))%string then Some (lit 1.0)
       else None;
     int_param := fun block name =>
       if ((block =? "problem") && (name =? "turb_flag"))%string then Some tf
       else None |}.

Definition mesh_example {Real : Type} `{RealOps Real} : @Mesh Real :=
  {| four_pi_G_ := lit 0.0; grav_eps_ := lit (-1.0); turb_flag := 0;
     UserSourceTerm_ := None |}.

(** ** The rest of the file, and notions used to state its behaviour *)

(** [Mesh::UserWorkAfterLoop] has an empty body. *)
Definition UserWorkAfterLoop {Real : Type} (pin : ParameterInput Real)
  : @MeshM Real unit :=
  ret tt.

(** The branch chain of [TempToLambda] without the lower-bound test of
    each [else if]. *)
Definition TempToLambda_chain {Real : Type} `{RealOps Real} (log10T : Real) : Real :=
  (if log10T <? lit 4.0 then lit (-24.0)
   else if log10T <? lit 5.0 then seg_4_5 log10T
   else if log10T <? lit 7.5 then seg_5_75 log10T
   else if log10T <? lit 9.0 then seg_75_9 log10T
   else seg_9_up log10T)%Real.

(** Over the reals, the energy a cell of pressure [p] and density [rho]
    loses per unit of [dt]. *)
Definition R_cooling_rate (p rho : R) : R :=
  let temp := (p / rho * mu * amu / kB)%R in
  if Rlt_dec temp_goal temp
  then (rho ^ 2 / amu ^ 2 * Rpower 10 (TempToLambda (R_log10 temp)))%R
  else 0%R.

(** A block with another index range in the innermost direction. *)
Definition set_i_range {Real : Type} (pmb : MeshBlock Real) (lo hi : Z) : MeshBlock Real :=
  {| is_ := lo; ie := hi; js := js pmb; je := je pmb;
     ks := ks pmb; ke := ke pmb; peos_GetGamma := peos_GetGamma pmb;
     phydro_u := phydro_u pmb |}.

(** The loop body of [CoolingSource] run over a list of cells, in the order
    of the list. *)
Definition visit_cells {Real : Type} `{RealOps Real}
  (log10 : Real -> Real) (pow : Real -> Real -> Real) (dt : Real)
  (prim : AthenaArray VarIndex Real) (cells : list (Z * Z * Z))
  (cons : AthenaArray VarIndex Real) : AthenaArray VarIndex Real :=
  fold_left (fun c cell =>
               match cell with
               | (k, j, i) => CoolingSource_cell log10 pow dt prim k j i c
               end) cells cons.

Definition b64_is_nan (x : binary64) : bool :=
  match x with S754_nan => true | _ => false end.

Definition b64_is_zero (x : binary64) : bool :=
  match x with S754_zero _ => true | _ => false end.

Definition b64_is_inf (x : binary64) : bool :=
  match x with S754_infinity _ => true | _ => false end.

(** The operands for which the binary64 quotient [p / rho] is a NaN: a NaN
    operand, zero over zero, infinity over infinity. *)
Definition b64_undefined_quotient (p rho : binary64) : bool :=
  b64_is_nan p || b64_is_nan rho
  || (b64_is_zero p && b64_is_zero rho)
  || (b64_is_inf p && b64_is_inf rho).

(** A block of two owned cells, [(0,0,0)] and [(0,0,1)], and a block that
    owns no cell. *)
Definition two_cells {Real : Type} `{RealOps Real} : MeshBlock Real :=
  set_i_range one_cell 0 1.

Definition empty_block {Real : Type} `{RealOps Real} : MeshBlock Real :=
  set_i_range one_cell 0 (-1).

(** ** Literals and comparisons over the reals *)

Lemma R_ltb_true (a b : R) : ltb a b = true <-> (a < b)%R.
Proof. cbn. destruct (Rlt_dec a b); split; intros; auto; discriminate. Qed.

Lemma R_ltb_false (a b : R) : ltb a b = false <-> (b <= a)%R.
Proof. cbn. destruct (Rlt_dec a b); split; intros; auto; try discriminate; lra. Qed.

Lemma R_leb_true (a b : R) : leb a b = true <-> (a <= b)%R.
Proof. cbn. destruct (Rle_dec a b); split; intros; auto; discriminate. Qed.

Lemma R_leb_false (a b : R) : leb a b = false <-> (b < a)%R.
Proof. cbn. destruct (Rle_dec a b); split; intros; auto; try discriminate; lra. Qed.

#[export] Instance R_RealOrder : RealOrder R.
Proof.
  constructor. intros a b Hle.
  apply R_leb_true in Hle. apply R_ltb_false. exact Hle.
Qed.

(** Reads the source's operations at the reals and evaluates its decimal
    literals to quotients of integers. *)
Ltac real_lits :=
  cbn [lit add sub mul div ltb leb R_RealOps] in *;
  repeat match goal with
         | |- context [Q2R ?q] =>
             let v := eval vm_compute in q in
             match v with
             | Qmake ?n ?d => change (Q2R q) with (IZR n * / IZR (Zpos d))%R
             end
         | |- context [IZR (Z.pow_pos ?a ?b)] =>
             let v := eval vm_compute in (Z.pow_pos a b) in
             change (Z.pow_pos a b) with v
         end.

(** Decides every comparison of the goal, leaving linear arithmetic. *)
Ltac real_cases :=
  real_lits;
  repeat match goal with
         | |- context [Rlt_dec ?a ?b] => destruct (Rlt_dec a b)
         | |- context [Rle_dec ?a ?b] => destruct (Rle_dec a b)
         end;
  cbn [andb] in *.

(** C2: over the reals, [TempToLambda] is the five-segment table of the
    specification, at every input. *)
Theorem TempToLambda_table (x : R) : TempToLambda x = CoolingCurve_table x.
Proof.
  unfold TempToLambda, CoolingCurve_table, seg_4_5, seg_5_75, seg_75_9, seg_9_up.
  real_cases; try lra.
Qed.

(** The constants of the source as binary64 values: mantissa and exponent
    of the nearest double of each decimal literal. *)
Lemma b64_constants :
  @temp_goal binary64 _ = S754_finite false 7205759403792794 (-56) /\
  @mu binary64 _ = S754_finite false 5584463537939415 (-53) /\
  @kB binary64 _ = S754_finite false 5600784587952372 (-105) /\
  @amu binary64 _ = S754_finite false 4520417130276226 (-131).
Proof. repeat split; vm_compute; reflexivity. Qed.

(** ** Loops, cell by cell *)

Section Loops.
Context {S V : Type} (get : S -> V).

(** A loop whose body never changes an observation leaves it as it was. *)
Lemma for_from_frame (body : Z -> S -> S) :
  (forall k s, get (body k s) = get s) ->
  forall n lo s, get (for_from n lo body s) = get s.
Proof.
  intros Hbody n. induction n as [|n IH]; intros lo s; cbn.
  - reflexivity.
  - rewrite IH. apply Hbody.
Qed.

Lemma for_range_frame (body : Z -> S -> S) (lo hi : Z) (s : S) :
  (forall k s, get (body k s) = get s) ->
  get (for_range lo hi body s) = get s.
Proof. intros Hbody. unfold for_range. now apply for_from_frame. Qed.

(** A loop whose body changes an observation only in iteration [t], and
    there by [g], applies [g] once if [t] is among its iterations. *)
Lemma for_from_pointwise (body : Z -> S -> S) (t : Z) (g : V -> V) :
  (forall k s, k <> t -> get (body k s) = get s) ->
  (forall s, get (body t s) = g (get s)) ->
  forall n lo s,
    get (for_from n lo body s) =
    if ((lo <=? t) && (t <? lo + Z.of_nat n))%Z then g (get s) else get s.
Proof.
  intros Hother Hat n. induction n as [|n IH]; intros lo s.
  - cbn [for_from].
    destruct (Z.leb_spec lo t), (Z.ltb_spec t (lo + Z.of_nat 0)); cbn; try reflexivity; lia.
  - cbn [for_from]. rewrite IH.
    destruct (Z.eq_dec lo t) as [->|Hne].
    + rewrite Hat.
      destruct (Z.leb_spec (t + 1) t); [lia|].
      destruct (Z.leb_spec t t); [|lia].
      destruct (Z.ltb_spec t (t + Z.of_nat (Datatypes.S n))); [|lia].
      reflexivity.
    + rewrite (Hother lo s Hne).
      destruct (Z.leb_spec (lo + 1) t), (Z.ltb_spec t (lo + 1 + Z.of_nat n)),
        (Z.leb_spec lo t), (Z.ltb_spec t (lo + Z.of_nat (Datatypes.S n)));
        cbn; try reflexivity; lia.
Qed.

Lemma for_range_pointwise (body : Z -> S -> S) (t : Z) (g : V -> V) (lo hi : Z) (s : S) :
  (forall k s, k <> t -> get (body k s) = get s) ->
  (forall s, get (body t s) = g (get s)) ->
  get (for_range lo hi body s) =
  if ((lo <=? t) && (t <=? hi))%Z then g (get s) else get s.
Proof.
  intros Hother Hat. unfold for_range.
  rewrite (for_from_pointwise body t g Hother Hat).
  destruct (Z.leb_spec lo t), (Z.leb_spec t hi),
    (Z.ltb_spec t (lo + Z.of_nat (Z.to_nat (hi + 1 - lo)))); cbn; try reflexivity; lia.
Qed.
End Loops.

(** The three nested loops over the owned range of a block: when the body
    at a cell touches slot [n] of that cell only, and there by [g], the
    loops apply [g] once to each owned cell and leave the others alone. *)
Lemma block_loops_pointwise {Real : Type} (pmb : MeshBlock Real)
  (body : Z -> Z -> Z -> AthenaArray VarIndex Real -> AthenaArray VarIndex Real)
  (n : VarIndex) (k0 j0 i0 : Z) (g : Real -> Real) :
  (forall k j i c, k <> k0 \/ j <> j0 \/ i <> i0 ->
     body k j i c n k0 j0 i0 = c n k0 j0 i0) ->
  (forall c, body k0 j0 i0 c n k0 j0 i0 = g (c n k0 j0 i0)) ->
  forall c,
    for_range (ks pmb) (ke pmb) (fun k =>
      for_range (js pmb) (je pmb) (fun j =>
        for_range (is_ pmb) (ie pmb) (fun i => body k j i))) c n k0 j0 i0 =
    if ownedb pmb k0 j0 i0 then g (c n k0 j0 i0) else c n k0 j0 i0.
Proof.
  intros Hother Hat c.
  set (get := fun a : AthenaArray VarIndex Real => a n k0 j0 i0).
  change (get (for_range (ks pmb) (ke pmb) (fun k =>
      for_range (js pmb) (je pmb) (fun j =>
        for_range (is_ pmb) (ie pmb) (fun i => body k j i))) c) =
    if ownedb pmb k0 j0 i0 then g (get c) else get c).
  rewrite (for_range_pointwise get _ k0
             (fun v => if ((js pmb <=? j0) && (j0 <=? je pmb))%Z
                       then (if ((is_ pmb <=? i0) && (i0 <=? ie pmb))%Z then g v else v)
                       else v)).
  - unfold ownedb.
    destruct ((ks pmb <=? k0) && (k0 <=? ke pmb))%Z,
      ((js pmb <=? j0) && (j0 <=? je pmb))%Z,
      ((is_ pmb <=? i0) && (i0 <=? ie pmb))%Z; reflexivity.
  - intros k s Hk. apply for_range_frame. intros j s'.
    apply for_range_frame. intros i s''. apply Hother. now left.
  - intros s.
    apply (for_range_pointwise get _ j0
             (fun v => if ((is_ pmb <=? i0) && (i0 <=? ie pmb))%Z then g v else v)).
    + intros j s' Hj. apply for_range_frame. intros i s''. apply Hother. right. now left.
    + intros s'. apply (for_range_pointwise get _ i0 g).
      * intros i s'' Hi. apply Hother. right. now right.
      * intros s''. apply Hat.
Qed.

Lemma VarIndex_eqb_eq (a b : VarIndex) : VarIndex_eqb a b = true <-> a = b.
Proof. destruct a, b; cbn; split; intros E; try reflexivity; discriminate. Qed.

Lemma set4_same {Real : Type} (a : AthenaArray VarIndex Real) n k j i v :
  set4 a n k j i v n k j i = v.
Proof.
  unfold set4. destruct n; cbn; rewrite !Z.eqb_refl; reflexivity.
Qed.

Lemma set4_other {Real : Type} (a : AthenaArray VarIndex Real) n k j i v n' k' j' i' :
  n' <> n \/ k' <> k \/ j' <> j \/ i' <> i ->
  set4 a n k j i v n' k' j' i' = a n' k' j' i'.
Proof.
  intros Hne. unfold set4.
  destruct (VarIndex_eqb n' n) eqn:En; cbn [andb]; [|reflexivity].
  apply VarIndex_eqb_eq in En.
  destruct (Z.eqb_spec k' k); cbn [andb]; [|reflexivity].
  destruct (Z.eqb_spec j' j); cbn [andb]; [|reflexivity].
  destruct (Z.eqb_spec i' i); cbn [andb]; [|reflexivity].
  exfalso. destruct Hne as [Hn|[Hn|[Hn|Hn]]]; contradiction.
Qed.

Lemma ownedb_owned {Real : Type} (pmb : MeshBlock Real) (k j i : Z) :
  ownedb pmb k j i = true <-> owned pmb k j i.
Proof.
  unfold ownedb, owned. rewrite !andb_true_iff, !Z.leb_le. tauto.
Qed.

Lemma one_cell_owned {Real : Type} `{RealOps Real} : owned (@one_cell Real _) 0 0 0.
Proof. unfold owned. cbn. lia. Qed.

(** ** The cooling source term, cell by cell *)

Section CoolingSourceFacts.
Context {Real : Type} `{RealOps Real}.
Variable log10 : Real -> Real.
Variable pow : Real -> Real -> Real.

Lemma CoolingSource_cell_same dt prim k j i cons :
  CoolingSource_cell log10 pow dt prim k j i cons IEN k j i =
  cooled_energy log10 pow dt (prim IPR k j i) (prim IDN k j i) (cons IEN k j i).
Proof.
  unfold CoolingSource_cell, cooled_energy.
  destruct (ltb temp_goal _); [apply set4_same | reflexivity].
Qed.

Lemma CoolingSource_cell_other dt prim k j i cons n' k' j' i' :
  n' <> IEN \/ k' <> k \/ j' <> j \/ i' <> i ->
  CoolingSource_cell log10 pow dt prim k j i cons n' k' j' i' = cons n' k' j' i'.
Proof.
  intros Hne. unfold CoolingSource_cell.
  destruct (ltb temp_goal _); [now apply set4_other | reflexivity].
Qed.

(** What one invocation leaves in every slot of every cell. *)
Lemma CoolingSource_pointwise pmb time dt prim prim_scalar bcc cons cons_scalar n k j i :
  fst (CoolingSource log10 pow pmb time dt prim prim_scalar bcc cons cons_scalar) n k j i =
  if VarIndex_eqb n IEN && ownedb pmb k j i
  then cooled_energy log10 pow dt (prim IPR k j i) (prim IDN k j i) (cons IEN k j i)
  else cons n k j i.
Proof.
  unfold CoolingSource. cbn [fst].
  destruct (VarIndex_eqb n IEN) eqn:En; cbn [andb].
  - apply VarIndex_eqb_eq in En. subst n.
    apply (block_loops_pointwise pmb (CoolingSource_cell log10 pow dt prim) IEN k j i
             (cooled_energy log10 pow dt (prim IPR k j i) (prim IDN k j i))).
    + intros k' j' i' c Hne. apply CoolingSource_cell_other.
      right. destruct Hne as [Hn|[Hn|Hn]]; auto.
    + intros c. apply CoolingSource_cell_same.
  - rewrite (block_loops_pointwise pmb (CoolingSource_cell log10 pow dt prim) n k j i
               (fun v => v)).
    + now destruct (ownedb pmb k j i).
    + intros k' j' i' c _. apply CoolingSource_cell_other. left.
      intros ->. discriminate.
    + intros c. apply CoolingSource_cell_other. left. intros ->. discriminate.
Qed.

End CoolingSourceFacts.

(** ** The order law at binary64 *)

Lemma SFcompare_antisym (a b : binary64) :
  SFcompare b a = option_map CompOpp (SFcompare a b).
Proof.
  destruct a as [sa|sa| |sa ma ea], b as [sb|sb| |sb mb eb]; cbn;
    try reflexivity;
    try (destruct sa; reflexivity);
    try (destruct sb; reflexivity);
    try (destruct sa, sb; reflexivity).
  destruct sa, sb; cbn; try reflexivity.
  - rewrite (Z.compare_antisym ea eb).
    destruct (ea ?= eb)%Z; cbn; try reflexivity.
    pose proof (Pos.compare_cont_antisym ma mb Eq) as E. cbn [CompOpp] in E.
    rewrite <- E. reflexivity.
  - rewrite (Z.compare_antisym ea eb).
    destruct (ea ?= eb)%Z; cbn; try reflexivity.
    pose proof (Pos.compare_cont_antisym ma mb Eq) as E. cbn [CompOpp] in E.
    rewrite <- E. reflexivity.
Qed.

#[export] Instance b64_RealOrder : RealOrder binary64.
Proof.
  constructor. intros a b. cbn [leb ltb b64_RealOps].
  unfold SFleb, SFltb. rewrite (SFcompare_antisym a b).
  destruct (SFcompare a b) as [[| |]|]; cbn; intros E; try reflexivity; discriminate.
Qed.

(** ** The energy update of one cell *)

Section CooledEnergy.
Context {Real : Type} `{RealOps Real}.
Variable log10 : Real -> Real.
Variable pow : Real -> Real -> Real.
Local Open Scope Real_scope.

Lemma cooled_energy_above (dt p rho e : Real) :
  (p / rho * mu * amu / kB >? temp_goal) = true ->
  cooled_energy log10 pow dt p rho e =
  e - dt * rho * rho / amu / amu
      * pow (lit 10.0) (TempToLambda (log10 (p / rho * mu * amu / kB))).
Proof. intros E. unfold cooled_energy. cbv zeta. now rewrite E. Qed.

Lemma cooled_energy_not_above (dt p rho e : Real) :
  (p / rho * mu * amu / kB >? temp_goal) = false ->
  cooled_energy log10 pow dt p rho e = e.
Proof. intros E. unfold cooled_energy. cbv zeta. now rewrite E. Qed.

End CooledEnergy.

(** A cell whose temperature does not compare above the floor keeps its
    energy, in any arithmetic. *)
Lemma CoolingSource_keeps_unless_above
  {Real : Type} `{RealOps Real} (log10 : Real -> Real) (pow : Real -> Real -> Real)
  (pmb : MeshBlock Real) (time dt : Real)
  (prim : AthenaArray VarIndex Real) (prim_scalar bcc : AthenaArray nat Real)
  (cons : AthenaArray VarIndex Real) (cons_scalar : AthenaArray nat Real)
  (k j i : Z) :
  (prim IPR k j i / prim IDN k j i * mu * amu / kB >? temp_goal)%Real = false ->
  fst (CoolingSource log10 pow pmb time dt prim prim_scalar bcc cons cons_scalar)
    IEN k j i = cons IEN k j i.
Proof.
  intros Hle. rewrite CoolingSource_pointwise.
  destruct (VarIndex_eqb IEN IEN && ownedb pmb k j i); [|reflexivity].
  now apply cooled_energy_not_above.
Qed.





(** The same happens on an ordinary cell: pressure 1e-10, density 1e-24,
    energy 1.5e-10 and [dt = 4e-5].  Its temperature is about 7.5e5; with
    the values that the C library returns there for [std::log10] and
    [std::pow] (about 5.8725 and 6.338e-22) the decrement, about 9.2e-27,
    is less than half a unit in the last place of the energy, and the
    energy comes back to the last bit. *)
Lemma CoolingSource_absorbs_ordinary_cell :
  let p := @lit binary64 _ 1e-10 in
  let rho := @lit binary64 _ 1e-24 in
  let dt := @lit binary64 _ 4e-5 in
  let e := @lit binary64 _ 1.5e-10 in
  let temp := (p / rho * mu * amu / kB)%Real in
  (temp >? temp_goal)%Real = true /\
  (forall (lg : binary64 -> binary64) (pw : binary64 -> binary64 -> binary64),
     lg temp = S754_finite false 6611893865510213 (-50) ->
     pw (@lit binary64 _ 10.0)
        (@TempToLambda binary64 _ (S754_finite false 6611893865510213 (-50)))
       = S754_finite false 6739944353463699 (-123) ->
     fst (CoolingSource lg pw one_cell (lit 0.0) dt (prim_of rho p)
            (uniform (lit 0.0)) (uniform (lit 0.0))
            (uniform e) (uniform (lit 0.0))) IEN 0%Z 0%Z 0%Z = e).
Proof.
  cbv zeta.
  assert (Hhot : ((@lit binary64 _ 1e-10 / lit 1e-24 * mu * amu / kB >? temp_goal)%Real
                  = true)) by (vm_compute; reflexivity).
  split; [exact Hhot|].
  intros lg pw Hlg Hpw.
  rewrite CoolingSource_pointwise.
  rewrite (proj2 (ownedb_owned one_cell 0 0 0) one_cell_owned). cbn [VarIndex_eqb andb].
  rewrite (cooled_energy_above lg pw _ _ _ _ Hhot).
  change (prim_of (lit 1e-24) (lit 1e-10) IDN 0%Z 0%Z 0%Z) with (@lit binary64 _ 1e-24).
  change (prim_of (lit 1e-24) (lit 1e-10) IPR 0%Z 0%Z 0%Z) with (@lit binary64 _ 1e-10).
  change (@uniform VarIndex binary64 (lit 1.5e-10) IEN 0%Z 0%Z 0%Z)
    with (@lit binary64 _ 1.5e-10).
  rewrite Hlg, Hpw. vm_compute. reflexivity.
Qed.

(** C3: a cell whose temperature compares [<=] the floor keeps its energy
    component as it was, whether or not the cell is owned, over any
    arithmetic that satisfies the order law (the reals and binary64 do). *)
Theorem CoolingSource_noop_below_floor
  {Real : Type} `{RealOrder Real} (log10 : Real -> Real) (pow : Real -> Real -> Real)
  (pmb : MeshBlock Real) (time dt : Real)
  (prim : AthenaArray VarIndex Real) (prim_scalar bcc : AthenaArray nat Real)
  (cons : AthenaArray VarIndex Real) (cons_scalar : AthenaArray nat Real)
  (k j i : Z) :
  (prim IPR k j i / prim IDN k j i * mu * amu / kB <=? temp_goal)%Real = true ->
  fst (CoolingSource log10 pow pmb time dt prim prim_scalar bcc cons cons_scalar)
    IEN k j i = cons IEN k j i.
Proof.
  intros Hle. apply CoolingSource_keeps_unless_above. now apply leb_not_gtb.
Qed.

Lemma CoolingSource_noop_below_floor_witness :
  fst (CoolingSource log10_stub pow_stub one_cell (lit 0.0) (lit 1.0)
         (prim_of (lit 1.0) (lit 1.0)) (uniform (lit 0.0)) (uniform (lit 0.0))
         (uniform (lit 2.5)) (uniform (lit 0.0)))
    IEN 0%Z 0%Z 0%Z = lit 2.5.
Proof.
  apply (CoolingSource_noop_below_floor log10_stub pow_stub one_cell (lit 0.0) (lit 1.0)
           (prim_of (lit 1.0) (lit 1.0)) (uniform (lit 0.0)) (uniform (lit 0.0))
           (uniform (lit 2.5)) (uniform (lit 0.0)) 0 0 0).
  vm_compute. reflexivity.
Defined.

(** ** The energy decrement over the reals *)

Lemma R_constants :
  (@temp_goal R _ = 0.1 /\ @mu R _ = 0.62 /\ @kB R _ = 1.3807e-16
   /\ @amu R _ = 1.660539e-24 /\ @lit R _ 10.0 = 10)%R.
Proof. unfold temp_goal, mu, kB, amu. real_lits. repeat split; lra. Qed.

Lemma R_amu_pos : (0 < @amu R _)%R.
Proof. unfold amu. real_lits. lra. Qed.

(** ** Shape of the cooling curve *)

Ltac curve_cases :=
  unfold TempToLambda, seg_4_5, seg_5_75, seg_75_9, seg_9_up; real_cases.

(** Over the reals the curve never changes faster than its steepest
    segment. *)
Lemma TempToLambda_lipschitz (x y : R) :
  (x <= y ->
   - (3.5 * (y - x)) <= TempToLambda y - TempToLambda x <= 3.5 * (y - x))%R.
Proof. intros Hxy. curve_cases; lra. Qed.

Lemma TempToLambda_continuous (x : R) : continuity_pt TempToLambda x.
Proof.
  intros eps Heps. exists (eps / 3.5)%R. split; [lra|].
  intros y [_ Hd]. cbn in Hd |- *. unfold Rdist in *.
  destruct (Rle_dec x y) as [Hle|Hgt].
  - pose proof (TempToLambda_lipschitz x y Hle) as HL.
    rewrite Rabs_right in Hd by lra.
    apply Rabs_def1; lra.
  - assert (Hle : (y <= x)%R) by lra.
    pose proof (TempToLambda_lipschitz y x Hle) as HL.
    rewrite Rabs_left in Hd by lra.
    apply Rabs_def1; lra.
Qed.

(** C4: at 4.0, 5.0, 7.5 and 9.0 the curve takes the values -24.0, -20.5,
    -22.5 and -22.0, and the formulas of the two adjoining segments agree
    there, both over the reals and, to the last bit, at binary64; over the
    reals the curve is continuous at every point. *)
Theorem TempToLambda_breakpoints :
  breakpoints_agree R /\ breakpoints_agree binary64 /\
  (forall x : R, continuity_pt TempToLambda x).
Proof.
  split; [|split].
  - unfold breakpoints_agree. repeat split; curve_cases; lra.
  - unfold breakpoints_agree. repeat split; vm_compute; reflexivity.
  - exact TempToLambda_continuous.
Qed.

(** C5, as stated, fails: the curve falls between 5.0 and 7.0. *)
Lemma TempToLambda_falls_from_5_to_7 :
  (4 <= 5 /\ 5 <= 7 /\ 7 < 9)%R /\
  ~ (TempToLambda (lit 5.0) <= TempToLambda (lit 7.0))%R.
Proof.
  split; [lra|]. curve_cases; lra.
Qed.

(** The four breakpoints as binary64 values. *)
Lemma b64_breakpoint_literals :
  @lit binary64 b64_RealOps 4.0 = S754_finite false 4503599627370496 (-50) /\
  @lit binary64 b64_RealOps 5.0 = S754_finite false 5629499534213120 (-50) /\
  @lit binary64 b64_RealOps 7.5 = S754_finite false 8444249301319680 (-50) /\
  @lit binary64 b64_RealOps 9.0 = S754_finite false 5066549580791808 (-49).
Proof. repeat split; vm_compute; reflexivity. Qed.

(** Among positive finite values, one of smaller exponent is not above a
    value that is at least one of larger exponent. *)
Lemma b64_below_smaller_exponent (ma mb : positive) (ea eb : Z) (x : binary64) :
  (ea < eb)%Z ->
  SFleb (S754_finite false mb eb) x = true ->
  SFltb x (S754_finite false ma ea) = false.
Proof.
  intros Hexp. unfold SFleb, SFltb.
  destruct x as [s|[|]| |[|] m e]; cbn [SFcompare]; intros Hle;
    try discriminate Hle; try reflexivity.
  destruct (Z.compare_spec eb e) as [Heq|Hlt|Hgt]; try discriminate Hle.
  - assert (E : (e ?= ea)%Z = Gt) by (apply Z.compare_gt_iff; lia).
    rewrite E. reflexivity.
  - assert (E : (e ?= ea)%Z = Gt) by (apply Z.compare_gt_iff; lia).
    rewrite E. reflexivity.
Qed.

(** At binary64 an input that compares [>=] 9.0 fails the four upper-bound
    tests of [TempToLambda]. *)
Lemma b64_ge_9_tests (x : binary64) :
  SFleb (@lit binary64 b64_RealOps 9.0) x = true ->
  SFltb x (@lit binary64 b64_RealOps 4.0) = false /\
  SFltb x (@lit binary64 b64_RealOps 5.0) = false /\
  SFltb x (@lit binary64 b64_RealOps 7.5) = false /\
  SFltb x (@lit binary64 b64_RealOps 9.0) = false.
Proof.
  intros H9. split; [|split; [|split]].
  - destruct b64_breakpoint_literals as (E4 & _ & _ & E9). rewrite E4. rewrite E9 in H9.
    eapply b64_below_smaller_exponent; [|exact H9]. lia.
  - destruct b64_breakpoint_literals as (_ & E5 & _ & E9). rewrite E5. rewrite E9 in H9.
    eapply b64_below_smaller_exponent; [|exact H9]. lia.
  - destruct b64_breakpoint_literals as (_ & _ & E75 & E9). rewrite E75. rewrite E9 in H9.
    eapply b64_below_smaller_exponent; [|exact H9]. lia.
  - apply (@leb_not_gtb binary64 _ b64_RealOrder). exact H9.
Qed.

(** C5, amended: over the reals the curve is non-decreasing on [4.0, 5.0]
    and from 7.5 on, and does not increase on [5.0, 7.5]; from 9.0 on it is
    the line [-22.0 + (x - 9.0) / 3.0] of slope 1/3, over the reals and, as
    the source evaluates it, at binary64. *)
Theorem TempToLambda_monotone_pieces :
  (forall x y : R, 4 <= x -> x <= y -> y <= 5 -> TempToLambda x <= TempToLambda y)%R /\
  (forall x y : R, 7.5 <= x -> x <= y -> TempToLambda x <= TempToLambda y)%R /\
  (forall x y : R, 5 <= x -> x <= y -> y <= 7.5 -> TempToLambda y <= TempToLambda x)%R /\
  (forall x : R, 9 <= x -> TempToLambda x = -22 + (x - 9) / 3)%R /\
  (forall x : binary64, (x >=? lit 9.0)%Real = true ->
     TempToLambda x = (lit (-22.0) + (x - lit 9.0) / lit 3.0)%Real).
Proof.
  split; [|split; [|split; [|split]]].
  - intros x y H4 Hxy H5. curve_cases; lra.
  - intros x y H75 Hxy. curve_cases; lra.
  - intros x y H5 Hxy H75. curve_cases; lra.
  - intros x H9. curve_cases; lra.
  - intros x H9. cbn [leb b64_RealOps] in H9.
    destruct (b64_ge_9_tests x H9) as (E4 & E5 & E75 & E9).
    unfold TempToLambda. cbn [ltb leb b64_RealOps].
    rewrite E4, E5, E75, E9, !andb_false_r. reflexivity.
Qed.

Lemma TempToLambda_monotone_pieces_witness :
  (TempToLambda 4.5 <= TempToLambda 5)%R /\
  (TempToLambda 8 <= TempToLambda 10)%R /\
  (TempToLambda 7 <= TempToLambda 5)%R /\
  (TempToLambda 12 = -22 + (12 - 9) / 3)%R /\
  TempToLambda (@lit binary64 _ 12.0) = (lit (-22.0) + (lit 12.0 - lit 9.0) / lit 3.0)%Real.
Proof.
  destruct TempToLambda_monotone_pieces as (H1 & H2 & H3 & H4 & H5).
  split; [apply H1; lra|]. split; [apply H2; lra|]. split; [apply H3; lra|].
  split; [apply H4; lra|]. apply H5. vm_compute. reflexivity.
Defined.

(** ** Frame and locality of the source term *)

(** C6: one invocation leaves every slot of [cons] other than the energy,
    the whole of [cons_scalar], and the energy of every cell that is not
    owned as they were; the energy of an owned cell becomes [cooled_energy]
    of that cell's own pressure, density and energy, so that it is the same
    whatever the other cells, the scalars, the field and [time] hold.  The
    primitive arrays and the field are [const] arguments and the function
    returns no new value for them. *)
Theorem CoolingSource_frame
  {Real : Type} `{RealOps Real} (log10 : Real -> Real) (pow : Real -> Real -> Real)
  (pmb : MeshBlock Real) (time dt : Real)
  (prim : AthenaArray VarIndex Real) (prim_scalar bcc : AthenaArray nat Real)
  (cons : AthenaArray VarIndex Real) (cons_scalar : AthenaArray nat Real) :
  let out := CoolingSource log10 pow pmb time dt prim prim_scalar bcc cons cons_scalar in
  (forall n k j i, n <> IEN -> fst out n k j i = cons n k j i) /\
  snd out = cons_scalar /\
  (forall k j i, ~ owned pmb k j i -> fst out IEN k j i = cons IEN k j i) /\
  (forall k j i, owned pmb k j i ->
     fst out IEN k j i =
     cooled_energy log10 pow dt (prim IPR k j i) (prim IDN k j i) (cons IEN k j i)) /\
  (forall k j i time' prim' prim_scalar' bcc' cons' cons_scalar',
     prim' IDN k j i = prim IDN k j i ->
     prim' IPR k j i = prim IPR k j i ->
     cons' IEN k j i = cons IEN k j i ->
     fst (CoolingSource log10 pow pmb time' dt prim' prim_scalar' bcc' cons' cons_scalar')
       IEN k j i = fst out IEN k j i).
Proof.
  cbv zeta. repeat split.
  - intros n k j i Hn. rewrite CoolingSource_pointwise.
    destruct (VarIndex_eqb n IEN) eqn:En; [|reflexivity].
    apply VarIndex_eqb_eq in En. contradiction.
  - intros k j i Hout. rewrite CoolingSource_pointwise.
    destruct (ownedb pmb k j i) eqn:Eo; [|now rewrite andb_false_r].
    apply ownedb_owned in Eo. contradiction.
  - intros k j i Hown. rewrite CoolingSource_pointwise.
    apply ownedb_owned in Hown. now rewrite Hown.
  - intros k j i time' prim' prim_scalar' bcc' cons' cons_scalar' Hd Hp He.
    rewrite !CoolingSource_pointwise, Hd, Hp, He. reflexivity.
Qed.

(** C10, as stated, fails: two invocations that agree on the cell's
    density, its pressure and [dt] but start from energies 1 and 2 end with
    energies 1 and 2, whatever [std::log10] and [std::pow] return. *)
Lemma CoolingSource_energy_needs_prior_energy :
  (forall (lg : binary64 -> binary64) (pw : binary64 -> binary64 -> binary64),
     fst (CoolingSource lg pw one_cell (lit 0.0) (lit 1.0)
            (prim_of (lit 1.0) (lit 1.0)) (uniform (lit 0.0)) (uniform (lit 0.0))
            (uniform (lit 1.0)) (uniform (lit 0.0))) IEN 0%Z 0%Z 0%Z = lit 1.0 /\
     fst (CoolingSource lg pw one_cell (lit 0.0) (lit 1.0)
            (prim_of (lit 1.0) (lit 1.0)) (uniform (lit 0.0)) (uniform (lit 0.0))
            (uniform (lit 2.0)) (uniform (lit 0.0))) IEN 0%Z 0%Z 0%Z = lit 2.0) /\
  @lit binary64 _ 1.0 <> lit 2.0.
Proof.
  split.
  - intros lg pw. split.
    + apply (CoolingSource_keeps_unless_above lg pw). vm_compute. reflexivity.
    + apply (CoolingSource_keeps_unless_above lg pw). vm_compute. reflexivity.
  - vm_compute. discriminate.
Qed.

(** C10, amended: the energy that one invocation leaves in a cell is a
    function of that cell's own density, pressure and energy on entry and
    of [dt]: two invocations that agree on these, on blocks that both own
    the cell or both do not, agree on it, whatever the time, the field, the
    scalars, the adiabatic index and the other cells are. *)
Theorem CoolingSource_local
  {Real : Type} `{RealOps Real} (log10 : Real -> Real) (pow : Real -> Real -> Real)
  (pmb pmb' : MeshBlock Real) (time time' dt : Real)
  (prim prim' : AthenaArray VarIndex Real)
  (prim_scalar prim_scalar' bcc bcc' : AthenaArray nat Real)
  (cons cons' : AthenaArray VarIndex Real) (cons_scalar cons_scalar' : AthenaArray nat Real)
  (k j i : Z) :
  ownedb pmb k j i = ownedb pmb' k j i ->
  prim IDN k j i = prim' IDN k j i ->
  prim IPR k j i = prim' IPR k j i ->
  cons IEN k j i = cons' IEN k j i ->
  fst (CoolingSource log10 pow pmb time dt prim prim_scalar bcc cons cons_scalar)
    IEN k j i =
  fst (CoolingSource log10 pow pmb' time' dt prim' prim_scalar' bcc' cons' cons_scalar')
    IEN k j i.
Proof.
  intros Ho Hd Hp He. rewrite !CoolingSource_pointwise.
  rewrite Ho, Hd, Hp, He. reflexivity.
Qed.

Lemma CoolingSource_local_witness :
  fst (CoolingSource log10_stub pow_stub one_cell (lit 0.0) (lit 1.0)
         (prim_of (lit 1.0) (lit 1.0)) (uniform (lit 0.0)) (uniform (lit 0.0))
         (uniform (lit 2.5)) (uniform (lit 0.0))) IEN 0%Z 0%Z 0%Z =
  fst (CoolingSource log10_stub pow_stub (set_phydro_u one_cell (uniform (lit 7.0)))
         (lit 3.0) (lit 1.0)
         (fun n k j i => if (k =? 0)%Z then prim_of (lit 1.0) (lit 1.0) n k j i
                         else lit 4.0)
         (uniform (lit 1.0)) (uniform (lit 9.0))
         (fun n k j i => if (k =? 0)%Z then lit 2.5 else lit 6.0)
         (uniform (lit 8.0))) IEN 0%Z 0%Z 0%Z.
Proof.
  apply (CoolingSource_local log10_stub pow_stub).
  - reflexivity.
  - reflexivity.
  - reflexivity.
  - reflexivity.
Defined.

(** ** The initial state *)

Section ProblemGeneratorFacts.
Context {Real : Type} `{RealOps Real}.
Local Open Scope Real_scope.

Lemma ProblemGenerator_cell_same NB rho T gm1 k j i u n :
  ProblemGenerator_cell NB rho T gm1 k j i u n k j i =
  initial_value NB rho T gm1 n (u n k j i).
Proof.
  unfold ProblemGenerator_cell, initial_value. cbv zeta.
  destruct NB, n; unfold set4; cbn [VarIndex_eqb andb];
    rewrite ?Z.eqb_refl; reflexivity.
Qed.

Lemma ProblemGenerator_cell_other NB rho T gm1 k j i u n k' j' i' :
  k' <> k \/ j' <> j \/ i' <> i ->
  ProblemGenerator_cell NB rho T gm1 k j i u n k' j' i' = u n k' j' i'.
Proof.
  intros Hne. unfold ProblemGenerator_cell.
  destruct NB; rewrite !set4_other by (right; exact Hne); reflexivity.
Qed.

Lemma ProblemGenerator_loops NB rho T gm1 (pmb : MeshBlock Real) u n k j i :
  for_range (ks pmb) (ke pmb) (fun k =>
    for_range (js pmb) (je pmb) (fun j =>
      for_range (is_ pmb) (ie pmb) (fun i =>
        ProblemGenerator_cell NB rho T gm1 k j i))) u n k j i =
  if ownedb pmb k j i then initial_value NB rho T gm1 n (u n k j i) else u n k j i.
Proof.
  apply (block_loops_pointwise pmb (ProblemGenerator_cell NB rho T gm1) n k j i
           (initial_value NB rho T gm1 n)).
  - intros k' j' i' c Hne. apply ProblemGenerator_cell_other.
    destruct Hne as [Hn|[Hn|Hn]]; auto.
  - intros c. apply ProblemGenerator_cell_same.
Qed.

End ProblemGeneratorFacts.

(** C7: with [rho], [T] and [gamma] configured, [ProblemGenerator] returns
    the block with, in every owned cell, the density [rho], the three
    momenta [0.0] and, when the equation of state carries an energy, the
    energy [rho * kB * T / (gamma - 1.0) / mu / amu] (otherwise the energy
    slot is left as it was); the constants are 0.62, 1.3807e-16 and
    1.660539e-24; every owned cell receives the same values, which depend
    on [rho], [T] and [gamma] alone. *)
Theorem ProblemGenerator_uniform
  {Real : Type} `{RealOps Real} (NON_BAROTROPIC_EOS : bool)
  (pmb : MeshBlock Real) (pin : ParameterInput Real) (rho T gamma : Real) :
  real_param pin "problem" "rho" = Some rho ->
  real_param pin "problem" "T" = Some T ->
  real_param pin "hydro" "gamma" = Some gamma ->
  exists pmb' : MeshBlock Real,
    ProblemGenerator NON_BAROTROPIC_EOS pmb pin = Ok pmb' /\
    (forall k j i, owned pmb k j i ->
       phydro_u pmb' IDN k j i = rho /\
       phydro_u pmb' IM1 k j i = lit 0.0 /\
       phydro_u pmb' IM2 k j i = lit 0.0 /\
       phydro_u pmb' IM3 k j i = lit 0.0 /\
       phydro_u pmb' IEN k j i =
         if NON_BAROTROPIC_EOS
         then (rho * kB * T / (gamma - lit 1.0) / mu / amu)%Real
         else phydro_u pmb IEN k j i) /\
    (@mu Real _ = lit 0.62 /\ @kB Real _ = lit 1.3807e-16
     /\ @amu Real _ = lit 1.660539e-24) /\
    (forall n k j i k' j' i',
       owned pmb k j i -> owned pmb k' j' i' ->
       n <> IEN \/ NON_BAROTROPIC_EOS = true ->
       phydro_u pmb' n k j i = phydro_u pmb' n k' j' i').
Proof.
  intros Hrho HT Hgamma.
  eexists. split; [|split; [|split]].
  - unfold ProblemGenerator, GetReal. rewrite Hrho, HT, Hgamma. cbn [bind_result].
    reflexivity.
  - intros k j i Hown. cbn [phydro_u set_phydro_u].
    rewrite !ProblemGenerator_loops.
    apply ownedb_owned in Hown. rewrite Hown. cbn [initial_value].
    repeat split; reflexivity.
  - repeat split; reflexivity.
  - intros n k j i k' j' i' Hown Hown' Hn. cbn [phydro_u set_phydro_u].
    rewrite !ProblemGenerator_loops.
    apply ownedb_owned in Hown, Hown'. rewrite Hown, Hown'.
    destruct n; cbn [initial_value]; try reflexivity.
    destruct Hn as [Hn|Hn]; [contradiction|]. rewrite Hn. reflexivity.
Qed.

Lemma ProblemGenerator_uniform_witness :
  exists pmb' : MeshBlock binary64,
    ProblemGenerator true one_cell (pin_example 0) = Ok pmb' /\
    phydro_u pmb' IDN 0%Z 0%Z 0%Z = lit 1.0 /\
    phydro_u pmb' IM1 0%Z 0%Z 0%Z = lit 0.0 /\
    phydro_u pmb' IEN 0%Z 0%Z 0%Z = S754_finite false 6437241355114601 (-5).
Proof.
  destruct (ProblemGenerator_uniform true one_cell (pin_example 0)
              (lit 1.0) (lit 1.0e6) (lit (5 # 3)) eq_refl eq_refl eq_refl)
    as (pmb' & Hrun & Hcells & _).
  exists pmb'. split; [exact Hrun|].
  destruct (Hcells 0%Z 0%Z 0%Z) as (Hd & Hm & _ & _ & He).
  - unfold owned. cbn. lia.
  - rewrite Hd, Hm, He. split; [reflexivity|]. split; [reflexivity|].
    vm_compute. reflexivity.
Defined.

(** ** Setup *)

(** C8: with [turb_flag] configured, and [four_pi_G] configured when
    self-gravity is enabled, [InitUserMeshData] succeeds when [turb_flag] is
    0, with or without FFT; fails with the diagnostic, before the source
    function is enrolled, when [turb_flag] is not 0 and FFT is absent;
    succeeds when FFT is present; enrolls [CoolingSource] when it succeeds;
    and hands [four_pi_G] and [grav_eps] (default 0.0) to the mesh when
    self-gravity is enabled and leaves them alone when it is not. *)
Theorem InitUserMeshData_outcome
  {Real : Type} `{RealOps Real} (log10 : Real -> Real) (pow : Real -> Real -> Real)
  (SELF_GRAVITY_ENABLED FFT : bool) (pin : ParameterInput Real) (m : Mesh)
  (tf : Z) (g : Real) :
  int_param pin "problem" "turb_flag" = Some tf ->
  (SELF_GRAVITY_ENABLED = true -> real_param pin "problem" "four_pi_G" = Some g) ->
  let out := InitUserMeshData log10 pow SELF_GRAVITY_ENABLED FFT pin m in
  (tf = 0%Z -> snd out = Ok tt) /\
  (tf <> 0%Z -> FFT = false ->
     snd out = Fatal turbulence_without_FFT /\
     UserSourceTerm_ (fst out) = UserSourceTerm_ m) /\
  (FFT = true -> snd out = Ok tt) /\
  (snd out = Ok tt -> UserSourceTerm_ (fst out) = Some (CoolingSource log10 pow)) /\
  (if SELF_GRAVITY_ENABLED
   then four_pi_G_ (fst out) = g /\
        grav_eps_ (fst out) = GetOrAddReal pin "problem" "grav_eps" (lit 0.0)
   else four_pi_G_ (fst out) = four_pi_G_ m /\ grav_eps_ (fst out) = grav_eps_ m) /\
  turb_flag (fst out) = tf.
Proof.
  intros Htf Hg. cbv zeta.
  unfold InitUserMeshData, bind, lift, ret, GetReal, GetInteger, SetFourPiG,
    SetGravityThreshold, set_turb_flag, EnrollUserExplicitSourceFunction, ATHENA_ERROR.
  rewrite Htf.
  destruct SELF_GRAVITY_ENABLED; [rewrite (Hg eq_refl)|];
    destruct (Z.eqb_spec tf 0) as [Hz|Hnz]; destruct FFT; cbn;
    repeat split; intros; try reflexivity; try congruence; try discriminate.
Qed.

Lemma InitUserMeshData_outcome_witness :
  let out := InitUserMeshData log10_stub pow_stub true false (pin_example 3)
               mesh_example in
  (3%Z = 0%Z -> snd out = Ok tt) /\
  (3%Z <> 0%Z -> false = false ->
     snd out = Fatal turbulence_without_FFT /\
     UserSourceTerm_ (fst out) = UserSourceTerm_ mesh_example) /\
  (false = true -> snd out = Ok tt) /\
  (snd out = Ok tt -> UserSourceTerm_ (fst out) = Some (CoolingSource log10_stub pow_stub)) /\
  (four_pi_G_ (fst out) = lit 1.0 /\
   grav_eps_ (fst out) = GetOrAddReal (pin_example 3) "problem" "grav_eps" (lit 0.0)) /\
  turb_flag (fst out) = 3%Z.
Proof.
  apply (InitUserMeshData_outcome log10_stub pow_stub true false (pin_example 3)
           mesh_example 3 (lit 1.0)).
  - reflexivity.
  - intros _. reflexivity.
Defined.

(** ** Degenerate cells at binary64 *)

Section Degenerate.
Local Open Scope Real_scope.

Lemma binary_round_aux_negative (m e : Z) (l : location) :
  b64_nonpos_or_nan (binary_round_aux prec emax true m e l) = true.
Proof.
  unfold binary_round_aux.
  destruct (shr_fexp prec emax m e l) as [mrs e'].
  destruct (shr_fexp prec emax _ e' loc_Exact) as [mrs2 e2].
  destruct (shr_m mrs2); [reflexivity| |reflexivity].
  destruct (Z.leb e2 (emax - prec)); reflexivity.
Qed.

(** A quotient of operands of opposite sign, or of a zero by a non-zero
    value, is zero, negative or NaN. *)
Lemma b64_div_opposite (p rho : binary64) :
  ((p <=? lit 0.0) = true /\ (rho >? lit 0.0) = true) \/
  ((p >=? lit 0.0) = true /\ (rho <? lit 0.0) = true) ->
  b64_nonpos_or_nan (p / rho) = true.
Proof.
  cbn [ltb leb div b64_RealOps].
  change (@lit binary64 _ 0.0) with (S754_zero false).
  destruct p as [sp|sp| |sp mp ep], rho as [sr|sr| |sr mr er];
    try destruct sp; try destruct sr; cbn [SFleb SFltb SFcompare];
    intros [[Hp Hr]|[Hp Hr]]; try discriminate; try reflexivity;
    unfold SFdiv; cbv beta iota;
    destruct (SFdiv_core_binary prec emax (Z.pos mp) ep (Z.pos mr) er) as [[mz ez] lz];
    cbn [xorb]; apply binary_round_aux_negative.
Qed.

Lemma b64_mul_pos_finite (x c : binary64) :
  b64_nonpos_or_nan x = true -> b64_pos_finite c = true ->
  b64_nonpos_or_nan (x * c) = true.
Proof.
  cbn [mul b64_RealOps].
  destruct c as [sc|sc| |[|] mc ec]; try discriminate. intros Hx _.
  destruct x as [s|s| |s m e]; cbn [b64_nonpos_or_nan] in Hx; try subst s;
    try reflexivity.
  unfold SFmul; cbv beta iota. cbn [xorb]. apply binary_round_aux_negative.
Qed.

Lemma b64_div_pos_finite (x c : binary64) :
  b64_nonpos_or_nan x = true -> b64_pos_finite c = true ->
  b64_nonpos_or_nan (x / c) = true.
Proof.
  cbn [div b64_RealOps].
  destruct c as [sc|sc| |[|] mc ec]; try discriminate. intros Hx _.
  destruct x as [s|s| |s m e]; cbn [b64_nonpos_or_nan] in Hx; try subst s;
    try reflexivity.
  unfold SFdiv; cbv beta iota.
  destruct (SFdiv_core_binary prec emax (Z.pos m) e (Z.pos mc) ec) as [[mz ez] lz].
  cbn [xorb]. apply binary_round_aux_negative.
Qed.

Lemma b64_pos_finite_not_below (c x : binary64) :
  b64_pos_finite c = true -> b64_nonpos_or_nan x = true -> (x >? c) = false.
Proof.
  cbn [ltb b64_RealOps].
  destruct c as [sc|sc| |[|] mc ec]; try discriminate. intros _ Hx.
  destruct x as [s|s| |s m e]; cbn [b64_nonpos_or_nan] in Hx; try subst s;
    reflexivity.
Qed.

(** The temperature of a cell whose pressure and density have opposite
    signs, or whose pressure is zero and density is not, does not compare
    above the floor. *)
Lemma b64_temp_not_above (p rho : binary64) :
  ((p <=? lit 0.0) = true /\ (rho >? lit 0.0) = true) \/
  ((p >=? lit 0.0) = true /\ (rho <? lit 0.0) = true) ->
  (p / rho * mu * amu / kB >? temp_goal) = false.
Proof.
  intros Hsign. apply b64_pos_finite_not_below; [vm_compute; reflexivity|].
  apply b64_div_pos_finite; [|vm_compute; reflexivity].
  apply b64_mul_pos_finite; [|vm_compute; reflexivity].
  apply b64_mul_pos_finite; [|vm_compute; reflexivity].
  now apply b64_div_opposite.
Qed.

(** A positive pressure over the density [+0] is the temperature [+inf]. *)
Lemma b64_temp_infinite (p : binary64) :
  (p >? lit 0.0) = true ->
  p / S754_zero false * mu * amu / kB = b64_pinf.
Proof.
  cbn [ltb b64_RealOps]. change (@lit binary64 _ 0.0) with (S754_zero false).
  destruct p as [s|[|]| |[|] m e]; cbn [SFltb SFcompare]; intros Hp;
    try discriminate; vm_compute; reflexivity.
Qed.

(** At density [+0] the decrement is the product of a zero or a NaN and
    [+inf]: a NaN, whatever [dt] is. *)
Lemma b64_zero_density_decrement (dt : binary64) :
  dt * S754_zero false * S754_zero false / amu / amu * b64_pinf = S754_nan.
Proof. destruct dt as [[|]|[|]| |[|] m e]; vm_compute; reflexivity. Qed.

Lemma b64_sub_nan (e : binary64) : e - S754_nan = S754_nan.
Proof. destruct e; reflexivity. Qed.

End Degenerate.

(** The curve at the special values of binary64: [-inf] (the logarithm of
    a zero temperature) falls in the first segment, [+inf] stays [+inf],
    and a NaN fails every comparison and leaves the last branch as a NaN. *)
Lemma TempToLambda_pinf : TempToLambda b64_pinf = b64_pinf.
Proof. vm_compute. reflexivity. Qed.

Lemma TempToLambda_ninf : TempToLambda (S754_infinity true) = @lit binary64 _ (-24.0).
Proof. vm_compute. reflexivity. Qed.

Lemma TempToLambda_nan : TempToLambda S754_nan = S754_nan.
Proof. vm_compute. reflexivity. Qed.

(** C9, as stated, fails: an owned cell of density 1 and pressure 0 has a
    pressure that compares [<= 0], and one invocation leaves its finite
    energy 2.5 as it was, whatever [std::log10] and [std::pow] return. *)
Lemma CoolingSource_zero_pressure_keeps_energy :
  (@lit binary64 _ 0.0 <=? lit 0.0)%Real = true /\
  owned (@one_cell binary64 _) 0 0 0 /\
  b64_is_finite (lit 2.5) = true /\
  (forall (lg : binary64 -> binary64) (pw : binary64 -> binary64 -> binary64),
     fst (CoolingSource lg pw one_cell (lit 0.0) (lit 1.0)
            (prim_of (lit 1.0) (lit 0.0)) (uniform (lit 0.0)) (uniform (lit 0.0))
            (uniform (lit 2.5)) (uniform (lit 0.0))) IEN 0%Z 0%Z 0%Z = lit 2.5).
Proof.
  split; [vm_compute; reflexivity|].
  split; [unfold owned; cbn; lia|].
  split; [vm_compute; reflexivity|].
  intros lg pw.
  apply (CoolingSource_keeps_unless_above lg pw). vm_compute. reflexivity.
Qed.

(** C9, amended: at binary64 a degenerate cell changes its energy only when
    its temperature compares above the floor.  A cell whose temperature
    does not (it is below the floor, or NaN) keeps its energy; this is so
    whenever pressure and density have opposite signs or the pressure is
    zero and the density is not.  An owned cell of density [+0] and
    positive pressure has the temperature [+inf], and its energy becomes
    NaN, for every [dt] and every energy on entry, when [std::log10] and
    [std::pow] send [+inf] to [+inf]: nothing guards the update. *)
Theorem CoolingSource_degenerate_cells
  (lg : binary64 -> binary64) (pw : binary64 -> binary64 -> binary64)
  (pmb : MeshBlock binary64) (time dt : binary64)
  (prim : AthenaArray VarIndex binary64) (prim_scalar bcc : AthenaArray nat binary64)
  (cons : AthenaArray VarIndex binary64) (cons_scalar : AthenaArray nat binary64)
  (k j i : Z) :
  lg b64_pinf = b64_pinf ->
  pw (lit 10.0) b64_pinf = b64_pinf ->
  let rho := prim IDN k j i in
  let p := prim IPR k j i in
  let e' := fst (CoolingSource lg pw pmb time dt prim prim_scalar bcc cons cons_scalar)
              IEN k j i in
  ((p / rho * mu * amu / kB >? temp_goal)%Real = false -> e' = cons IEN k j i) /\
  (((p <=? lit 0.0)%Real = true /\ (rho >? lit 0.0)%Real = true) \/
   ((p >=? lit 0.0)%Real = true /\ (rho <? lit 0.0)%Real = true) ->
   e' = cons IEN k j i) /\
  (owned pmb k j i -> rho = S754_zero false -> (p >? lit 0.0)%Real = true ->
   e' = S754_nan).
Proof.
  intros Hlg Hpw rho p e'. split; [|split].
  - intros Hnot. now apply CoolingSource_keeps_unless_above.
  - intros Hsign. apply CoolingSource_keeps_unless_above.
    now apply b64_temp_not_above.
  - intros Hown Hrho Hp. unfold e'. rewrite CoolingSource_pointwise.
    apply ownedb_owned in Hown. rewrite Hown. cbn [VarIndex_eqb andb].
    fold rho p. rewrite Hrho.
    rewrite cooled_energy_above; rewrite (b64_temp_infinite p Hp).
    + rewrite Hlg, TempToLambda_pinf, Hpw.
      rewrite b64_zero_density_decrement. apply b64_sub_nan.
    + vm_compute. reflexivity.
Qed.

Lemma CoolingSource_degenerate_cells_witness :
  let e' := fst (CoolingSource log10_stub pow_stub one_cell (lit 0.0) (lit 1.0)
                   (prim_of (S754_zero false) (lit 1.0))
                   (uniform (lit 0.0)) (uniform (lit 0.0))
                   (uniform (lit 2.5)) (uniform (lit 0.0))) IEN 0%Z 0%Z 0%Z in
  b64_is_finite (lit 2.5) = true /\ e' = S754_nan.
Proof.
  split; [vm_compute; reflexivity|].
  apply (CoolingSource_degenerate_cells log10_stub pow_stub one_cell (lit 0.0) (lit 1.0)
           (prim_of (S754_zero false) (lit 1.0))
           (uniform (lit 0.0)) (uniform (lit 0.0))
           (uniform (lit 2.5)) (uniform (lit 0.0)) 0 0 0).
  - reflexivity.
  - reflexivity.
  - unfold owned. cbn. lia.
  - reflexivity.
  - vm_compute. reflexivity.
Defined.

(** * Further properties of the code *)

(** ** The cooling curve and the energy decrement over the reals *)


(** X1: over the reals the curve never goes below -24.0, takes that value
    exactly on the inputs up to 4.0, and stays at or below its peak value
    -20.5 (reached at 5.0) for every input up to 13.5. *)
Theorem TempToLambda_bounds (x : R) :
  (-24 <= TempToLambda x)%R /\
  (TempToLambda x = -24 <-> x <= 4)%R /\
  (x <= 13.5 -> TempToLambda x <= -20.5)%R.
Proof. curve_cases; repeat split; intros; lra. Qed.

Lemma R_cooled_energy_rate (dt p rho e : R) :
  cooled_energy R_log10 R_pow dt p rho e = (e - dt * R_cooling_rate p rho)%R.
Proof.
  unfold cooled_energy, R_cooling_rate, R_pow. cbv zeta.
  replace (lit 10.0) with 10%R by (symmetry; apply R_constants).
  cbn [add sub mul div ltb leb R_RealOps].
  destruct (Rlt_dec temp_goal (p / rho * mu * amu / kB)) as [Hlt|Hge].
  - pose proof R_amu_pos. field. lra.
  - lra.
Qed.


Lemma R_Rpower_pos (b y : R) : (0 < Rpower b y)%R.
Proof. unfold Rpower. apply exp_pos. Qed.

Lemma R_cooling_rate_nonneg (p rho : R) : (0 <= R_cooling_rate p rho)%R.
Proof.
  unfold R_cooling_rate. cbv zeta.
  destruct (Rlt_dec _ _); [|lra].
  pose proof R_amu_pos as Ha.
  pose proof (R_Rpower_pos 10 (TempToLambda (R_log10 (p / rho * mu * amu / kB)))) as HL.
  apply Rmult_le_pos; [|lra].
  apply Rmult_le_pos; [apply pow2_ge_0|].
  apply Rlt_le, Rinv_0_lt_compat. apply pow_lt. exact Ha.
Qed.



Lemma R_CoolingSource_energy pmb time dt prim prim_scalar bcc cons cons_scalar (k j i : Z) :
  fst (CoolingSource R_log10 R_pow pmb time dt prim prim_scalar bcc cons cons_scalar) IEN k j i =
  (cons IEN k j i -
   dt * (if ownedb pmb k j i then R_cooling_rate (prim IPR k j i) (prim IDN k j i) else 0))%R.
Proof.
  rewrite CoolingSource_pointwise. cbn [VarIndex_eqb andb].
  destruct (ownedb pmb k j i).
  - apply R_cooled_energy_rate.
  - lra.
Qed.

Section RealSteps.
Variables (pmb : MeshBlock R) (prim : AthenaArray VarIndex R)
  (prim_scalar bcc : AthenaArray nat R)
  (cons : AthenaArray VarIndex R) (cons_scalar : AthenaArray nat R).

(** X4: over the reals, with [dt >= 0], no slot of any cell is larger
    after an invocation than before it. *)
Theorem CoolingSource_never_heats (time dt : R) (n : VarIndex) (k j i : Z) :
  (0 <= dt)%R ->
  (fst (CoolingSource R_log10 R_pow pmb time dt prim prim_scalar bcc
          cons cons_scalar) n k j i <= cons n k j i)%R.
Proof.
  intros Hdt. destruct (VarIndex_eqb n IEN) eqn:En.
  - apply VarIndex_eqb_eq in En. subst n. rewrite R_CoolingSource_energy.
    destruct (ownedb pmb k j i); [|lra].
    pose proof (R_cooling_rate_nonneg (prim IPR k j i) (prim IDN k j i)). nra.
  - rewrite CoolingSource_pointwise, En. cbn [andb]. lra.
Qed.


End RealSteps.

(** ** Any arithmetic: empty blocks, schedules, sub-blocks *)

Section GenericExtras.
Context {Real : Type} `{RealOps Real}.
Variable log10 : Real -> Real.
Variable pow : Real -> Real -> Real.

Lemma ownedb_empty (pmb : MeshBlock Real) (k j i : Z) :
  (ke pmb < ks pmb \/ je pmb < js pmb \/ ie pmb < is_ pmb)%Z ->
  ownedb pmb k j i = false.
Proof.
  intros Hempty. destruct (ownedb pmb k j i) eqn:E; [|reflexivity].
  apply ownedb_owned in E. unfold owned in E. lia.
Qed.

(** X10: on a block whose owned range is empty in some direction an
    invocation changes nothing, in any arithmetic. *)
Theorem CoolingSource_empty_block
  (pmb : MeshBlock Real) (time dt : Real)
  (prim : AthenaArray VarIndex Real) (prim_scalar bcc : AthenaArray nat Real)
  (cons : AthenaArray VarIndex Real) (cons_scalar : AthenaArray nat Real)
  (n : VarIndex) (k j i : Z) :
  (ke pmb < ks pmb \/ je pmb < js pmb \/ ie pmb < is_ pmb)%Z ->
  fst (CoolingSource log10 pow pmb time dt prim prim_scalar bcc cons cons_scalar)
    n k j i = cons n k j i.
Proof.
  intros Hempty. rewrite CoolingSource_pointwise, (ownedb_empty pmb k j i Hempty).
  now rewrite andb_false_r.
Qed.

Lemma CoolingSource_cell_pointwise dt prim k j i cons n' k' j' i' :
  CoolingSource_cell log10 pow dt prim k j i cons n' k' j' i' =
  if VarIndex_eqb n' IEN && (k' =? k)%Z && (j' =? j)%Z && (i' =? i)%Z
  then cooled_energy log10 pow dt (prim IPR k j i) (prim IDN k j i) (cons IEN k j i)
  else cons n' k' j' i'.
Proof.
  destruct (VarIndex_eqb n' IEN) eqn:En; cbn [andb].
  - apply VarIndex_eqb_eq in En. subst n'.
    destruct (Z.eqb_spec k' k) as [->|Hk]; cbn [andb];
      [|apply CoolingSource_cell_other; auto].
    destruct (Z.eqb_spec j' j) as [->|Hj]; cbn [andb];
      [|apply CoolingSource_cell_other; auto].
    destruct (Z.eqb_spec i' i) as [->|Hi]; cbn [andb];
      [|apply CoolingSource_cell_other; auto].
    apply CoolingSource_cell_same.
  - apply CoolingSource_cell_other. left. intros ->. discriminate.
Qed.

(** The loop body at two different cells commutes, whatever the two step
    sizes are. *)
Lemma CoolingSource_cell_commute
  (dt1 dt2 : Real) (prim : AthenaArray VarIndex Real)
  (k1 j1 i1 k2 j2 i2 : Z) (cons : AthenaArray VarIndex Real)
  (n : VarIndex) (k j i : Z) :
  k1 <> k2 \/ j1 <> j2 \/ i1 <> i2 ->
  CoolingSource_cell log10 pow dt1 prim k1 j1 i1
    (CoolingSource_cell log10 pow dt2 prim k2 j2 i2 cons) n k j i =
  CoolingSource_cell log10 pow dt2 prim k2 j2 i2
    (CoolingSource_cell log10 pow dt1 prim k1 j1 i1 cons) n k j i.
Proof.
  intros Hne.
  assert (H12 : ((k1 =? k2) && (j1 =? j2) && (i1 =? i2))%Z = false).
  { destruct (Z.eqb_spec k1 k2), (Z.eqb_spec j1 j2), (Z.eqb_spec i1 i2);
      cbn [andb]; try reflexivity; exfalso; lia. }
  assert (H21 : ((k2 =? k1) && (j2 =? j1) && (i2 =? i1))%Z = false).
  { destruct (Z.eqb_spec k2 k1), (Z.eqb_spec j2 j1), (Z.eqb_spec i2 i1);
      cbn [andb]; try reflexivity; exfalso; lia. }
  rewrite !CoolingSource_cell_pointwise. cbn [VarIndex_eqb andb].
  rewrite H12, H21.
  destruct (VarIndex_eqb n IEN); cbn [andb]; [|reflexivity].
  destruct ((k =? k1) && (j =? j1) && (i =? i1))%Z eqn:E1;
    destruct ((k =? k2) && (j =? j2) && (i =? i2))%Z eqn:E2; try reflexivity.
  exfalso. rewrite !andb_true_iff, !Z.eqb_eq in E1, E2. lia.
Qed.

End GenericExtras.

Section Schedules.
Context {Real : Type} `{RealOps Real}.
Variable log10 : Real -> Real.
Variable pow : Real -> Real -> Real.

Lemma visit_cells_cons dt prim k j i cells cons :
  visit_cells log10 pow dt prim ((k, j, i) :: cells) cons =
  visit_cells log10 pow dt prim cells (CoolingSource_cell log10 pow dt prim k j i cons).
Proof. reflexivity. Qed.

Lemma visit_cells_other dt prim cells :
  forall cons n k j i,
    ~ In (k, j, i) cells \/ n <> IEN ->
    visit_cells log10 pow dt prim cells cons n k j i = cons n k j i.
Proof.
  induction cells as [|[[k0 j0] i0] cells IH]; intros cons n k j i Hout.
  - reflexivity.
  - rewrite visit_cells_cons, IH.
    + apply CoolingSource_cell_other.
      destruct Hout as [Hnin|Hn]; [|now left].
      right.
      destruct (Z.eq_dec k k0) as [->|]; [|now left].
      destruct (Z.eq_dec j j0) as [->|]; [|right; now left].
      destruct (Z.eq_dec i i0) as [->|]; [|right; now right].
      exfalso. apply Hnin. now left.
    + destruct Hout as [Hnin|Hn]; [left|now right].
      intros Hin. apply Hnin. now right.
Qed.

Lemma visit_cells_in dt prim cells :
  NoDup cells ->
  forall cons k j i,
    In (k, j, i) cells ->
    visit_cells log10 pow dt prim cells cons IEN k j i =
    cooled_energy log10 pow dt (prim IPR k j i) (prim IDN k j i) (cons IEN k j i).
Proof.
  induction 1 as [|[[k0 j0] i0] cells Hnin Hnd IH]; intros cons k j i Hin.
  - destruct Hin.
  - rewrite visit_cells_cons. destruct Hin as [Heq|Hin].
    + injection Heq as -> -> ->.
      rewrite visit_cells_other by now left.
      apply CoolingSource_cell_same.
    + rewrite (IH _ k j i Hin). f_equal.
      apply CoolingSource_cell_other. right.
      destruct (Z.eq_dec k k0) as [->|]; [|now left].
      destruct (Z.eq_dec j j0) as [->|]; [|right; now left].
      destruct (Z.eq_dec i i0) as [->|]; [|right; now right].
      contradiction.
Qed.

(** X11: the order of the three loops does not matter: running the loop
    body once over every owned cell, in any order, leaves in every slot of
    every cell what [CoolingSource] leaves, in any arithmetic. *)
Theorem CoolingSource_any_schedule
  (pmb : MeshBlock Real) (time dt : Real)
  (prim : AthenaArray VarIndex Real) (prim_scalar bcc : AthenaArray nat Real)
  (cons : AthenaArray VarIndex Real) (cons_scalar : AthenaArray nat Real)
  (cells : list (Z * Z * Z)) (n : VarIndex) (k j i : Z) :
  NoDup cells ->
  (forall k j i, In (k, j, i) cells <-> owned pmb k j i) ->
  visit_cells log10 pow dt prim cells cons n k j i =
  fst (CoolingSource log10 pow pmb time dt prim prim_scalar bcc cons cons_scalar)
    n k j i.
Proof.
  intros Hnd Hcover. rewrite CoolingSource_pointwise.
  destruct (VarIndex_eqb n IEN) eqn:En; cbn [andb].
  - apply VarIndex_eqb_eq in En. subst n.
    destruct (ownedb pmb k j i) eqn:Eo.
    + apply visit_cells_in; [exact Hnd|]. apply Hcover. now apply ownedb_owned.
    + apply visit_cells_other. left. intros Hin.
      apply Hcover, ownedb_owned in Hin. congruence.
  - apply visit_cells_other. right. intros ->. discriminate.
Qed.

(** X12: a block can be cooled in two parts: an invocation on the cells
    up to index [m] of the innermost direction followed by one on the
    cells from [m + 1] leaves what one invocation on the whole block
    leaves, in any arithmetic. *)
Theorem CoolingSource_split_block
  (pmb : MeshBlock Real) (time time1 time2 dt : Real)
  (prim : AthenaArray VarIndex Real)
  (prim_scalar prim_scalar' bcc bcc' : AthenaArray nat Real)
  (cons : AthenaArray VarIndex Real) (cons_scalar : AthenaArray nat Real)
  (m : Z) (n : VarIndex) (k j i : Z) :
  (is_ pmb - 1 <= m <= ie pmb)%Z ->
  let left := set_i_range pmb (is_ pmb) m in
  let right := set_i_range pmb (m + 1) (ie pmb) in
  let out1 := CoolingSource log10 pow left time1 dt prim prim_scalar bcc
                cons cons_scalar in
  fst (CoolingSource log10 pow right time2 dt prim prim_scalar' bcc'
         (fst out1) (snd out1)) n k j i =
  fst (CoolingSource log10 pow pmb time dt prim prim_scalar bcc cons cons_scalar)
    n k j i.
Proof.
  intros Hm. cbv zeta. rewrite !CoolingSource_pointwise.
  destruct (VarIndex_eqb n IEN) eqn:En; cbn [andb]; [|reflexivity].
  apply VarIndex_eqb_eq in En. subst n. cbn [VarIndex_eqb andb].
  unfold ownedb, set_i_range. cbn [is_ ie js je ks ke].
  destruct ((ks pmb <=? k) && (k <=? ke pmb) && ((js pmb <=? j) && (j <=? je pmb)))%Z;
    cbn [andb]; [|reflexivity].
  destruct (Z.leb_spec (is_ pmb) i), (Z.leb_spec i m), (Z.leb_spec (m + 1) i),
    (Z.leb_spec i (ie pmb)); cbn [andb]; try reflexivity; exfalso; lia.
Qed.

End Schedules.

Section GeneratorExtras.
Context {Real : Type} `{RealOps Real}.

(** X14: when [ProblemGenerator] returns a block, the block has the index
    range and the adiabatic index it had, and every slot of every cell
    outside the owned range (the ghost cells) holds what it held. *)
Theorem ProblemGenerator_outside_untouched
  (NON_BAROTROPIC_EOS : bool) (pmb pmb' : MeshBlock Real) (pin : ParameterInput Real) :
  ProblemGenerator NON_BAROTROPIC_EOS pmb pin = Ok pmb' ->
  (is_ pmb' = is_ pmb /\ ie pmb' = ie pmb /\ js pmb' = js pmb /\ je pmb' = je pmb /\
   ks pmb' = ks pmb /\ ke pmb' = ke pmb /\ peos_GetGamma pmb' = peos_GetGamma pmb) /\
  (forall n k j i, ~ owned pmb k j i ->
     phydro_u pmb' n k j i = phydro_u pmb n k j i).
Proof.
  unfold ProblemGenerator.
  destruct (GetReal pin "problem" "rho") as [rho|]; [|discriminate].
  destruct (GetReal pin "problem" "T") as [T|]; [|discriminate].
  destruct (GetReal pin "hydro" "gamma") as [gamma|]; [|discriminate].
  cbn [bind_result]. intros Hrun. injection Hrun as <-.
  split; [repeat split|].
  intros n k j i Hout. cbn [phydro_u set_phydro_u].
  rewrite ProblemGenerator_loops.
  destruct (ownedb pmb k j i) eqn:Eo; [|reflexivity].
  apply ownedb_owned in Eo. contradiction.
Qed.

(** X15: generating the initial state of a block that was already
    generated from the same configuration succeeds and changes no slot of
    any cell. *)
Theorem ProblemGenerator_idempotent
  (NON_BAROTROPIC_EOS : bool) (pmb pmb1 : MeshBlock Real) (pin : ParameterInput Real) :
  ProblemGenerator NON_BAROTROPIC_EOS pmb pin = Ok pmb1 ->
  exists pmb2 : MeshBlock Real,
    ProblemGenerator NON_BAROTROPIC_EOS pmb1 pin = Ok pmb2 /\
    forall n k j i, phydro_u pmb2 n k j i = phydro_u pmb1 n k j i.
Proof.
  unfold ProblemGenerator.
  destruct (GetReal pin "problem" "rho") as [rho|]; [|discriminate].
  destruct (GetReal pin "problem" "T") as [T|]; [|discriminate].
  destruct (GetReal pin "hydro" "gamma") as [gamma|]; [|discriminate].
  cbn [bind_result]. intros Hrun. injection Hrun as <-.
  eexists. split; [reflexivity|].
  intros n k j i. cbn [phydro_u set_phydro_u is_ ie js je ks ke].
  rewrite !ProblemGenerator_loops.
  destruct (ownedb pmb k j i); [|reflexivity].
  destruct n, NON_BAROTROPIC_EOS; reflexivity.
Qed.

End GeneratorExtras.

(** ** Special values of binary64, and setup *)

Lemma b64_not_lt_ge (x a : binary64) :
  b64_is_nan x = false -> b64_is_nan a = false ->
  SFltb x a = false -> SFleb a x = true.
Proof.
  intros Hx Ha. unfold SFltb, SFleb. rewrite (SFcompare_antisym x a).
  destruct (SFcompare x a) as [[| |]|] eqn:E; cbn; intros Hlt;
    try reflexivity; try discriminate.
  destruct x as [?|?| |[|] ? ?], a as [?|?| |[|] ? ?]; cbn in E; discriminate.
Qed.

(** X2: the lower-bound test of each [else if] of [TempToLambda] never
    decides: over the reals and at binary64, for every input (NaN and the
    infinities included), the function is the chain of the four upper-bound
    tests alone. *)
Theorem TempToLambda_lower_tests_redundant :
  (forall x : R, TempToLambda x = TempToLambda_chain x) /\
  (forall x : binary64, TempToLambda x = TempToLambda_chain x).
Proof.
  split.
  - intros x. unfold TempToLambda_chain. curve_cases; lra.
  - intros x. destruct (b64_is_nan x) eqn:Hnan.
    + destruct x; try discriminate. vm_compute. reflexivity.
    + unfold TempToLambda, TempToLambda_chain. cbn [ltb leb b64_RealOps].
      destruct (SFltb x (@lit binary64 b64_RealOps 4.0)) eqn:E4; [reflexivity|].
      rewrite (b64_not_lt_ge x (@lit binary64 b64_RealOps 4.0) Hnan ltac:(vm_compute; reflexivity) E4). cbn [andb].
      destruct (SFltb x (@lit binary64 b64_RealOps 5.0)) eqn:E5; [reflexivity|].
      rewrite (b64_not_lt_ge x (@lit binary64 b64_RealOps 5.0) Hnan ltac:(vm_compute; reflexivity) E5). cbn [andb].
      destruct (SFltb x (@lit binary64 b64_RealOps 7.5)) eqn:E75; [reflexivity|].
      rewrite (b64_not_lt_ge x (@lit binary64 b64_RealOps 7.5) Hnan ltac:(vm_compute; reflexivity) E75). cbn [andb].
      reflexivity.
Qed.

Lemma b64_undefined_quotient_nan (p rho : binary64) :
  b64_undefined_quotient p rho = true ->
  (p / rho * mu * amu / kB)%Real = S754_nan.
Proof.
  unfold b64_undefined_quotient. intros Hq.
  destruct p as [?|?| |? ? ?], rho as [?|?| |? ? ?];
    cbn [b64_is_nan b64_is_zero b64_is_inf orb andb] in Hq;
    try discriminate Hq; reflexivity.
Qed.

(** X13: at binary64, a cell whose pressure or density is a NaN, or whose
    pressure and density are both zero or both infinite, has the
    temperature NaN, and an invocation leaves its energy as it was,
    whatever [std::log10] and [std::pow] return. *)
Theorem CoolingSource_undefined_temperature_keeps_energy
  (lg : binary64 -> binary64) (pw : binary64 -> binary64 -> binary64)
  (pmb : MeshBlock binary64) (time dt : binary64)
  (prim : AthenaArray VarIndex binary64) (prim_scalar bcc : AthenaArray nat binary64)
  (cons : AthenaArray VarIndex binary64) (cons_scalar : AthenaArray nat binary64)
  (k j i : Z) :
  b64_undefined_quotient (prim IPR k j i) (prim IDN k j i) = true ->
  (prim IPR k j i / prim IDN k j i * mu * amu / kB)%Real = S754_nan /\
  fst (CoolingSource lg pw pmb time dt prim prim_scalar bcc cons cons_scalar)
    IEN k j i = cons IEN k j i.
Proof.
  intros Hq. pose proof (b64_undefined_quotient_nan _ _ Hq) as Hnan.
  split; [exact Hnan|].
  apply CoolingSource_keeps_unless_above. rewrite Hnan. reflexivity.
Qed.

Section SetupExtras.
Context {Real : Type} `{RealOps Real}.
Variable log10 : Real -> Real.
Variable pow : Real -> Real -> Real.

(** X17: running the setup again on the mesh it left gives the same mesh
    and the same outcome, on every path (success, fatal turbulence flag,
    missing key). *)
Theorem InitUserMeshData_idempotent
  (SELF_GRAVITY_ENABLED FFT : bool) (pin : ParameterInput Real) (m : Mesh) :
  InitUserMeshData log10 pow SELF_GRAVITY_ENABLED FFT pin
    (fst (InitUserMeshData log10 pow SELF_GRAVITY_ENABLED FFT pin m)) =
  InitUserMeshData log10 pow SELF_GRAVITY_ENABLED FFT pin m.
Proof.
  unfold InitUserMeshData, bind, lift, ret, GetReal, GetInteger, SetFourPiG,
    SetGravityThreshold, set_turb_flag, EnrollUserExplicitSourceFunction, ATHENA_ERROR.
  destruct SELF_GRAVITY_ENABLED;
    [destruct (real_param pin "problem" "four_pi_G")|];
    destruct (int_param pin "problem" "turb_flag") as [tf|];
    try destruct (Z.eqb tf 0); destruct FFT; destruct m; reflexivity.
Qed.
End SetupExtras.

(** ** Instances of the properties above *)


Lemma CoolingSource_never_heats_witness :
  (fst (CoolingSource R_log10 R_pow one_cell 0%R 1%R
          (prim_of 1%R 1000000000%R) (uniform 0%R) (uniform 0%R)
          (uniform 5%R) (uniform 0%R)) IEN 0%Z 0%Z 0%Z <= 5)%R.
Proof.
  apply (CoolingSource_never_heats one_cell (prim_of 1%R 1000000000%R)
           (uniform 0%R) (uniform 0%R) (uniform 5%R) (uniform 0%R) 0%R 1%R IEN 0 0 0).
  lra.
Defined.


Lemma CoolingSource_empty_block_witness :
  fst (CoolingSource log10_stub pow_stub empty_block (lit 0.0) (lit 1.0)
         (prim_of (lit 1.0) (lit 1.0e9)) (uniform (lit 0.0)) (uniform (lit 0.0))
         (uniform (lit 2.5)) (uniform (lit 0.0))) IEN 0%Z 0%Z 0%Z = lit 2.5.
Proof.
  apply (CoolingSource_empty_block log10_stub pow_stub empty_block (lit 0.0) (lit 1.0)
           (prim_of (lit 1.0) (lit 1.0e9)) (uniform (lit 0.0)) (uniform (lit 0.0))
           (uniform (lit 2.5)) (uniform (lit 0.0)) IEN 0 0 0).
  right. right. cbn. lia.
Defined.

Lemma two_cells_reversed (k j i : Z) :
  In (k, j, i) ((0, 0, 1) :: (0, 0, 0) :: nil)%Z <-> owned (@two_cells binary64 _) k j i.
Proof.
  unfold owned. cbn. split.
  - intros [E|[E|[]]]; injection E as <- <- <-; lia.
  - intros (Hk & Hj & Hi).
    assert (k = 0%Z) by lia. assert (j = 0%Z) by lia. subst.
    destruct (Z.eq_dec i 0) as [->|]; [right; left; reflexivity|].
    assert (i = 1%Z) by lia. subst. left. reflexivity.
Qed.

Lemma CoolingSource_any_schedule_witness :
  visit_cells log10_stub pow_stub (lit 1.0) (prim_of (lit 1.0) (lit 1.0e9))
    ((0, 0, 1) :: (0, 0, 0) :: nil)%Z (uniform (lit 2.5)) IEN 0%Z 0%Z 1%Z =
  fst (CoolingSource log10_stub pow_stub two_cells (lit 0.0) (lit 1.0)
         (prim_of (lit 1.0) (lit 1.0e9)) (uniform (lit 0.0)) (uniform (lit 0.0))
         (uniform (lit 2.5)) (uniform (lit 0.0))) IEN 0%Z 0%Z 1%Z.
Proof.
  apply (CoolingSource_any_schedule log10_stub pow_stub two_cells (lit 0.0) (lit 1.0)
           (prim_of (lit 1.0) (lit 1.0e9)) (uniform (lit 0.0)) (uniform (lit 0.0))
           (uniform (lit 2.5)) (uniform (lit 0.0))).
  - constructor.
    + intros [E|[]]. discriminate.
    + constructor; [intros []|constructor].
  - exact two_cells_reversed.
Defined.

Lemma CoolingSource_split_block_witness :
  fst (CoolingSource log10_stub pow_stub (set_i_range two_cells 1 1) (lit 0.0) (lit 1.0)
         (prim_of (lit 1.0) (lit 1.0e9)) (uniform (lit 0.0)) (uniform (lit 0.0))
         (fst (CoolingSource log10_stub pow_stub (set_i_range two_cells 0 0)
                 (lit 0.0) (lit 1.0) (prim_of (lit 1.0) (lit 1.0e9))
                 (uniform (lit 0.0)) (uniform (lit 0.0))
                 (uniform (lit 2.5)) (uniform (lit 0.0))))
         (uniform (lit 0.0))) IEN 0%Z 0%Z 1%Z =
  fst (CoolingSource log10_stub pow_stub two_cells (lit 0.0) (lit 1.0)
         (prim_of (lit 1.0) (lit 1.0e9)) (uniform (lit 0.0)) (uniform (lit 0.0))
         (uniform (lit 2.5)) (uniform (lit 0.0))) IEN 0%Z 0%Z 1%Z.
Proof.
  apply (CoolingSource_split_block log10_stub pow_stub two_cells (lit 0.0) (lit 0.0)
           (lit 0.0) (lit 1.0) (prim_of (lit 1.0) (lit 1.0e9))
           (uniform (lit 0.0)) (uniform (lit 0.0)) (uniform (lit 0.0)) (uniform (lit 0.0))
           (uniform (lit 2.5)) (uniform (lit 0.0)) 0 IEN 0 0 1).
  cbn. lia.
Defined.

Lemma CoolingSource_undefined_temperature_keeps_energy_witness :
  (@prim_of binary64 _ (lit 1.0) S754_nan IPR 0%Z 0%Z 0%Z
   / @prim_of binary64 _ (lit 1.0) S754_nan IDN 0%Z 0%Z 0%Z * mu * amu / kB)%Real
  = S754_nan /\
  fst (CoolingSource log10_stub pow_stub one_cell (lit 0.0) (lit 1.0)
         (prim_of (lit 1.0) S754_nan) (uniform (lit 0.0)) (uniform (lit 0.0))
         (uniform (lit 2.5)) (uniform (lit 0.0))) IEN 0%Z 0%Z 0%Z = lit 2.5.
Proof.
  apply (CoolingSource_undefined_temperature_keeps_energy log10_stub pow_stub one_cell
           (lit 0.0) (lit 1.0) (prim_of (lit 1.0) S754_nan)
           (uniform (lit 0.0)) (uniform (lit 0.0))
           (uniform (lit 2.5)) (uniform (lit 0.0)) 0 0 0).
  reflexivity.
Defined.

Lemma ProblemGenerator_outside_untouched_witness :
  exists pmb' : MeshBlock binary64,
    ProblemGenerator true one_cell (pin_example 0) = Ok pmb' /\
    ie pmb' = 0%Z /\
    phydro_u pmb' IEN 0%Z 0%Z 1%Z = lit 0.0.
Proof.
  eexists. split; [reflexivity|].
  destruct (ProblemGenerator_outside_untouched true one_cell _ (pin_example 0) eq_refl)
    as [(_ & Hie & _) Hout].
  split; [exact Hie|].
  apply (Hout IEN 0%Z 0%Z 1%Z). unfold owned. cbn. lia.
Defined.

Lemma ProblemGenerator_idempotent_witness :
  exists pmb1 pmb2 : MeshBlock binary64,
    ProblemGenerator true one_cell (pin_example 0) = Ok pmb1 /\
    ProblemGenerator true pmb1 (pin_example 0) = Ok pmb2 /\
    forall n k j i, phydro_u pmb2 n k j i = phydro_u pmb1 n k j i.
Proof.
  eexists.
  destruct (ProblemGenerator_idempotent true one_cell _ (pin_example 0) eq_refl)
    as (pmb2 & Hrun & Hsame).
  exists pmb2. split; [reflexivity|]. split; [exact Hrun|exact Hsame].
Defined.

